(** * Energy-demand dashboard ([app.py]): a shallow embedding and its properties

    The development follows the layout of the module it verifies:

    - the Python values and exceptions the module manipulates;
    - [str] on integers and [pandas.to_datetime] with an explicit
      [strptime] format, as used by the Dash callback;
    - the time-indexed [DataFrame] with label slicing ([.loc[start:]]),
      positional slicing ([df[:stop]]) and column access ([df[name]]);
    - the Plotly figure assembled by [plot_series];
    - [load_data], [plot_series] and the callback [update_output_div],
      written in a small state-and-exception monad over the module's
      global variable [data];
    - the way Dash applies a callback's outcome to the [figure] property
      of the graph component.

    Library calls (pandas, Plotly, Dash) are modelled by the behaviour the
    module relies on; every such model says so in its comment. *)

From Stdlib Require Import ZArith QArith Bool Ascii String DecimalString.
From Stdlib Require Import List Sorted Lia.
Import ListNotations.

Local Open Scope string_scope.
Local Open Scope Z_scope.

(* ===================================================================== *)
(** ** Python values, exceptions, results *)
(* ===================================================================== *)

(** What a [KeyError] reports: the name of a column (or a message), or the
    timestamp that was looked up. *)
Inductive key : Type :=
| KStr (s : string)
| KStamp (t : Z).

(** The exceptions that can leave the module.  pandas'
    [OutOfBoundsDatetime] is a subclass of [ValueError] and is folded into
    it. *)
Inductive exn : Type :=
| KeyError (k : key)
| ValueError (msg : string)
| FileNotFoundError (path : string).

Inductive result (A : Type) : Type :=
| Ok (a : A)
| Err (e : exn).
Arguments Ok {A} a.
Arguments Err {A} e.

Definition result_bind {A B} (r : result A) (k : A -> result B) : result B :=
  match r with
  | Ok a => k a
  | Err e => Err e
  end.

(** [mapM] on results: the first failure, from the left, is the one raised. *)
Fixpoint result_map {A B} (f : A -> result B) (l : list A) : result (list B) :=
  match l with
  | [] => Ok []
  | a :: l' =>
      result_bind (f a) (fun b =>
      result_bind (result_map f l') (fun bs => Ok (b :: bs)))
  end.

(** A cell of a table: a number, a piece of text, or a missing value. *)
Inductive cell : Type :=
| Num (q : Q)
| Text (s : string)
| NaN.

(** A pandas [Timestamp]: nanoseconds since 1970-01-01 00:00 (no time zone). *)
Abbreviation Timestamp := Z (only parsing).

(** Python's [str] on an [int]: decimal digits, a leading [-] when negative. *)
Definition str (n : Z) : string := NilZero.string_of_int (Z.to_int n).

(** Python's [int] on a value that is already an integer. *)
Definition int (n : Z) : Z := n.

(* ===================================================================== *)
(** ** [strptime]: parsing a timestamp against an explicit format *)
(* ===================================================================== *)

(** The format directives the module uses ([%Y %m %d %H %M]), a run of
    white space, and literal characters. *)
Inductive directive : Type :=
| DYear | DMonth | DDay | DHour | DMinute
| DSpace
| DLit (c : ascii).

Definition charclass : Type := ascii -> bool.

Definition in_range (lo hi : ascii) : charclass :=
  fun c => (N.leb (N_of_ascii lo) (N_of_ascii c) && N.leb (N_of_ascii c) (N_of_ascii hi))%bool.

Definition is_char (a : ascii) : charclass := fun c => Ascii.eqb a c.

Definition is_digit : charclass := in_range "0" "9".

(** [\s] on ASCII text: space, and the controls tab to carriage return. *)
Definition is_space : charclass :=
  fun c => (Ascii.eqb c " " || in_range "009" "013" c)%bool.

(** The regular expression of each numeric directive, as the ordered list
    of its alternatives; an alternative is a sequence of character classes.
    These are the tables of CPython's [_strptime] (and of pandas' copy):
<<
      Y: \d\d\d\d                          m: 1[0-2]|0[1-9]|[1-9]
      d: 3[0-1]|[1-2]\d|0[1-9]|[1-9]| [1-9]
      H: 2[0-3]|[0-1]\d|\d                 M: [0-5]\d|\d
>> *)
Definition directive_regex (d : directive) : list (list charclass) :=
  match d with
  | DYear => [[is_digit; is_digit; is_digit; is_digit]]
  | DMonth => [[is_char "1"; in_range "0" "2"]; [is_char "0"; in_range "1" "9"];
               [in_range "1" "9"]]
  | DDay => [[is_char "3"; in_range "0" "1"]; [in_range "1" "2"; is_digit];
             [is_char "0"; in_range "1" "9"]; [in_range "1" "9"];
             [is_char " "; in_range "1" "9"]]
  | DHour => [[is_char "2"; in_range "0" "3"]; [in_range "0" "1"; is_digit]; [is_digit]]
  | DMinute => [[in_range "0" "5"; is_digit]; [is_digit]]
  | DSpace => []
  | DLit _ => []
  end.

(** Matching one alternative at the head of the text: the matched text and
    what is left. *)
Fixpoint match_alt (a : list charclass) (s : list ascii) : option (list ascii * list ascii) :=
  match a, s with
  | [], _ => Some ([], s)
  | p :: a', c :: s' =>
      if p c then
        match match_alt a' s' with
        | Some (txt, rest) => Some (c :: txt, rest)
        | None => None
        end
      else None
  | _ :: _, [] => None
  end.

(** [\s+] is greedy: the longest run first, then every shorter one. *)
Fixpoint match_spaces (s : list ascii) : list (list ascii * list ascii) :=
  match s with
  | c :: s' =>
      if is_space c then
        map (fun tr => (c :: fst tr, snd tr)) (match_spaces s') ++ [([c], s')]
      else []
  | [] => []
  end.

(** Python's [int] on the text a numeric group matched (blanks are skipped). *)
Definition int_of_text (txt : list ascii) : Z :=
  fold_left (fun acc c => if is_digit c then 10 * acc + (Z.of_N (N_of_ascii c) - 48) else acc)
            txt 0.

Record fields : Type := mkFields {
  f_year : Z; f_month : Z; f_day : Z; f_hour : Z; f_minute : Z
}.

(** Defaults of [strptime] for the fields a format does not mention. *)
Definition default_fields : fields := mkFields 1900 1 1 0 0.

Definition set_field (d : directive) (v : Z) (f : fields) : fields :=
  match d with
  | DYear => mkFields v (f_month f) (f_day f) (f_hour f) (f_minute f)
  | DMonth => mkFields (f_year f) v (f_day f) (f_hour f) (f_minute f)
  | DDay => mkFields (f_year f) (f_month f) v (f_hour f) (f_minute f)
  | DHour => mkFields (f_year f) (f_month f) (f_day f) v (f_minute f)
  | DMinute => mkFields (f_year f) (f_month f) (f_day f) (f_hour f) v
  | DSpace | DLit _ => f
  end.

(** All the ways one directive can match at the head of the text, in the
    order a backtracking matcher tries them. *)
Definition match_directive (d : directive) (f : fields) (s : list ascii)
  : list (fields * list ascii) :=
  match d with
  | DSpace => map (fun tr => (f, snd tr)) (match_spaces s)
  | DLit c =>
      match s with
      | c' :: rest => if Ascii.eqb c c' then [(f, rest)] else []
      | [] => []
      end
  | _ =>
      flat_map (fun a =>
                  match match_alt a s with
                  | Some (txt, rest) => [(set_field d (int_of_text txt) f, rest)]
                  | None => []
                  end)
               (directive_regex d)
  end.

Fixpoint match_format (ds : list directive) (f : fields) (s : list ascii)
  : list (fields * list ascii) :=
  match ds with
  | [] => [(f, s)]
  | d :: ds' =>
      flat_map (fun fr => match_format ds' (fst fr) (snd fr)) (match_directive d f s)
  end.

Definition directive_of (c : ascii) : option directive :=
  if Ascii.eqb c "Y" then Some DYear
  else if Ascii.eqb c "m" then Some DMonth
  else if Ascii.eqb c "d" then Some DDay
  else if Ascii.eqb c "H" then Some DHour
  else if Ascii.eqb c "M" then Some DMinute
  else None.

(** Translating the format string.  A run of white space in the format
    becomes one [\s+]; [%x] becomes the directive [x]; any other character
    stands for itself.  Directives the module never uses are not modelled
    and are reported as bad. *)
Fixpoint compile_format (after_space : bool) (fmt : list ascii) : option (list directive) :=
  match fmt with
  | [] => Some []
  | c :: rest =>
      if Ascii.eqb c "%" then
        match rest with
        | x :: rest' =>
            match directive_of x, compile_format false rest' with
            | Some d, Some ds => Some (d :: ds)
            | _, _ => None
            end
        | [] => None
        end
      else if is_space c then
        if after_space then compile_format true rest
        else option_map (cons DSpace) (compile_format true rest)
      else option_map (cons (DLit c)) (compile_format false rest)
  end.

(** [strptime]: the first match of the format at the head of the text must
    consume all of it. *)
Definition strptime (s fmt : string) : result fields :=
  match compile_format false (list_ascii_of_string fmt) with
  | None => Err (ValueError "bad directive in format")
  | Some ds =>
      match match_format ds default_fields (list_ascii_of_string s) with
      | [] => Err (ValueError "time data does not match format")
      | (f, []) :: _ => Ok f
      | (_, _ :: _) :: _ => Err (ValueError "unconverted data remains")
      end
  end.

Definition is_leap (y : Z) : bool :=
  ((y mod 4 =? 0) && (negb (y mod 100 =? 0) || (y mod 400 =? 0)))%bool.

Definition days_in_month (y m : Z) : Z :=
  if m =? 2 then (if is_leap y then 29 else 28)
  else if (m =? 4) || (m =? 6) || (m =? 9) || (m =? 11) then 30
  else 31.

(** Days between 1970-01-01 and the given civil date (proleptic Gregorian). *)
Definition days_from_civil (y m d : Z) : Z :=
  let y' := if m <=? 2 then y - 1 else y in
  let era := y' / 400 in
  let yoe := y' - era * 400 in
  let doy := (153 * (if 2 <? m then m - 3 else m + 9) + 2) / 5 + d - 1 in
  let doe := yoe * 365 + yoe / 4 - yoe / 100 + doy in
  era * 146097 + doe - 719468.

Definition ns_per_minute : Z := 60 * 1000000000.

Definition timestamp_of_fields (f : fields) : Timestamp :=
  ((days_from_civil (f_year f) (f_month f) (f_day f) * 24 + f_hour f) * 60 + f_minute f)
  * ns_per_minute.

(** The range of a nanosecond [Timestamp] (a signed 64-bit count). *)
Definition timestamp_min : Z := - 9223372036854775807.
Definition timestamp_max : Z := 9223372036854775807.

(** [pd.to_datetime(s, format=fmt)] on one string: [strptime], then the
    checks of the calendar ([datetime] rejects year 0 and a day the month
    does not have) and of the representable range. *)
Definition to_datetime (s fmt : string) : result Timestamp :=
  result_bind (strptime s fmt) (fun f =>
  if (f_year f <? 1) || (days_in_month (f_year f) (f_month f) <? f_day f) then
    Err (ValueError "day is out of range for month")
  else
    let t := timestamp_of_fields f in
    if (t <? timestamp_min) || (timestamp_max <? t) then
      Err (ValueError "Out of bounds nanosecond timestamp")
    else Ok t).

(* ===================================================================== *)
(** ** pandas: time-indexed tables *)
(* ===================================================================== *)

(** What [pd.read_csv] returns: named columns over records, numbered by
    position.  A record that is shorter than the header reads as missing
    values ([NaN]) in the columns it lacks. *)
Record RawFrame : Type := mkRawFrame {
  raw_columns : list string;
  raw_rows : list (list cell)
}.

(** A [DataFrame] whose index is a [DatetimeIndex]: every row carries its
    timestamp and its cells, in the order of [columns]. *)
Record DataFrame : Type := mkDataFrame {
  columns : list string;
  rows : list (Timestamp * list cell)
}.

(** [df.index] *)
Definition index (df : DataFrame) : list Timestamp := map fst (rows df).

Fixpoint column_position (name : string) (cols : list string) : option nat :=
  match cols with
  | [] => None
  | c :: cols' =>
      if String.eqb name c then Some 0%nat
      else option_map S (column_position name cols')
  end.

(** [df[name]] on a raw frame and on an indexed one: the values of the
    column, or [KeyError(name)]. *)
Definition raw_getitem (df : RawFrame) (name : string) : result (list cell) :=
  match column_position name (raw_columns df) with
  | Some p => Ok (map (fun r => nth p r NaN) (raw_rows df))
  | None => Err (KeyError (KStr name))
  end.

Definition getitem (df : DataFrame) (name : string) : result (list cell) :=
  match column_position name (columns df) with
  | Some p => Ok (map (fun r => nth p (snd r) NaN) (rows df))
  | None => Err (KeyError (KStr name))
  end.

Fixpoint remove_nth {A} (p : nat) (l : list A) : list A :=
  match p, l with
  | _, [] => []
  | O, _ :: l' => l'
  | S p', a :: l' => a :: remove_nth p' l'
  end.

(** [df.set_index(name)], given the (already converted) values of that
    column: the column leaves the table and becomes its index; the order of
    the rows is unchanged. *)
Definition set_index (df : RawFrame) (name : string) (keys : list Timestamp) : DataFrame :=
  match column_position name (raw_columns df) with
  | Some p =>
      mkDataFrame (remove_nth p (raw_columns df))
                  (combine keys (map (remove_nth p) (raw_rows df)))
  | None => mkDataFrame (raw_columns df) (combine keys (raw_rows df))
  end.

(** [index.is_monotonic_increasing]: no entry is smaller than the one
    before it (equal neighbours are allowed). *)
Fixpoint is_monotonic_increasing (idx : list Timestamp) : bool :=
  match idx with
  | a :: (b :: _) as tl => (a <=? b) && is_monotonic_increasing tl
  | _ => true
  end.

Fixpoint is_monotonic_decreasing (idx : list Timestamp) : bool :=
  match idx with
  | a :: (b :: _) as tl => (b <=? a) && is_monotonic_decreasing tl
  | _ => true
  end.

(** [index.searchsorted(x, side="left")] on a monotonic increasing index:
    the position of the first entry that is not below [x]. *)
Fixpoint searchsorted_left (idx : list Timestamp) (x : Timestamp) : nat :=
  match idx with
  | [] => 0%nat
  | t :: idx' => if t <? x then S (searchsorted_left idx' x) else 0%nat
  end.

(** The position of the first entry equal to [x], when there is one. *)
Fixpoint first_position (idx : list Timestamp) (x : Timestamp) : option nat :=
  match idx with
  | [] => None
  | t :: idx' => if t =? x then Some 0%nat else option_map S (first_position idx' x)
  end.

Fixpoint drop_while {A} (f : A -> bool) (l : list A) : list A :=
  match l with
  | [] => []
  | a :: l' => if f a then drop_while f l' else l
  end.

(** The entries equal to [x] are next to one another. *)
Definition one_run (idx : list Timestamp) (x : Timestamp) : bool :=
  negb (existsb (Z.eqb x)
          (drop_while (Z.eqb x) (drop_while (fun t => negb (x =? t)) idx))).

(** [index.get_slice_bound(x, side="left")] for a [Timestamp] label, which
    is how [df.loc[x:]] finds where to start.

    When [x] occurs in the index the bound is its first position, provided
    its occurrences are next to one another ([KeyError] otherwise).  When
    it does not occur, the bound is found by [searchsorted]: on an
    increasing index it is the position of the first entry above [x], on a
    decreasing index the position after the last entry above [x]; an index
    that is neither raises [KeyError(x)]. *)
Definition get_slice_bound_left (idx : list Timestamp) (x : Timestamp) : result nat :=
  match first_position idx x with
  | Some p =>
      if one_run idx x then Ok p
      else Err (KeyError (KStr "Cannot get left slice bound for non-unique label"))
  | None =>
      if is_monotonic_increasing idx then Ok (searchsorted_left idx x)
      else if is_monotonic_decreasing idx then
        Ok (length (filter (fun t => x <? t) idx))
      else Err (KeyError (KStamp x))
  end.

(** [df.loc[start:]] for a [Timestamp] label: the rows from the left bound
    of [start] on.  A label beyond the last entry of an increasing index
    gives the empty table. *)
Definition loc_from (df : DataFrame) (start : Timestamp) : result DataFrame :=
  result_bind (get_slice_bound_left (index df) start) (fun p =>
  Ok (mkDataFrame (columns df) (skipn p (rows df)))).

(** The end of a Python slice [[:stop]] over a sequence of [len] items: a
    negative [stop] counts from the end, and the bound is clamped to
    [0 .. len]. *)
Definition slice_stop (len : nat) (stop : Z) : nat :=
  if stop <? 0 then Z.to_nat (Z.max 0 (stop + Z.of_nat len))
  else Z.to_nat (Z.min stop (Z.of_nat len)).

(** [df[:stop]]: positional slicing of the rows. *)
Definition head_slice (df : DataFrame) (stop : Z) : DataFrame :=
  mkDataFrame (columns df) (firstn (slice_stop (length (rows df)) stop) (rows df)).

(** The files [pd.read_csv] can see: a path either has a table or does not
    exist.  Tokenising the text of the file is not modelled, and neither are
    the other ways in which [pd.read_csv] can fail on a file that exists (an
    empty or malformed file, a file that may not be read): a file that
    exists is one that [pd.read_csv] reads into a table. *)
Definition FileSystem : Type := string -> option RawFrame.

Definition read_csv (fs : FileSystem) (path : string) : result RawFrame :=
  match fs path with
  | Some t => Ok t
  | None => Err (FileNotFoundError path)
  end.

(* ===================================================================== *)
(** ** Plotly: the figure *)
(* ===================================================================== *)

(** A property that is not set keeps Plotly's default and is [None] here:
    a line without [dash] is solid, a trace without [showlegend] is listed
    in the legend, a trace without [fill] is not filled. *)
Record Line : Type := mkLine {
  line_color : option string;
  line_width : option Q;
  line_dash : option string
}.

Record Marker : Type := mkMarker {
  marker_color : option string
}.

Record Scatter : Type := mkScatter {
  sc_name : string;
  sc_x : list Timestamp;
  sc_y : list cell;
  sc_mode : option string;
  sc_line : Line;
  sc_marker : option Marker;
  sc_fillcolor : option string;
  sc_fill : option string;
  sc_showlegend : option bool
}.

Record Legend : Type := mkLegend {
  orientation : option string;
  yanchor : option string;
  legend_y : option Q;
  xanchor : option string;
  legend_x : option Q
}.

Record Axis : Type := mkAxis {
  axis_title : option string;
  showgrid : option bool;
  gridwidth : option Q;
  gridcolor : option string
}.

Record Layout : Type := mkLayout {
  legend : Legend;
  xaxis : Axis;
  yaxis : Axis;
  hovermode : option string;
  paper_bgcolor : option string;
  plot_bgcolor : option string;
  font_color : option string
}.

Record Figure : Type := mkFigure {
  fig_data : list Scatter;
  fig_layout : Layout
}.

Definition empty_legend : Legend := mkLegend None None None None None.
Definition empty_axis : Axis := mkAxis None None None None.
Definition empty_layout : Layout :=
  mkLayout empty_legend empty_axis empty_axis None None None None.

(** [go.Figure(traces)] *)
Definition go_Figure (traces : list Scatter) : Figure := mkFigure traces empty_layout.

(** An update sets the properties it names and leaves the others alone. *)
Definition upd {A} (new old : option A) : option A :=
  match new with
  | Some _ => new
  | None => old
  end.

Definition update_legend (new old : Legend) : Legend :=
  mkLegend (upd (orientation new) (orientation old)) (upd (yanchor new) (yanchor old))
           (upd (legend_y new) (legend_y old)) (upd (xanchor new) (xanchor old))
           (upd (legend_x new) (legend_x old)).

Definition update_axis (new old : Axis) : Axis :=
  mkAxis (upd (axis_title new) (axis_title old)) (upd (showgrid new) (showgrid old))
         (upd (gridwidth new) (gridwidth old)) (upd (gridcolor new) (gridcolor old)).

(** [fig.update_layout(...)]; the keyword [yaxis_title] is the property
    [title] of [yaxis]. *)
Definition update_layout (new : Layout) (fig : Figure) : Figure :=
  let old := fig_layout fig in
  mkFigure (fig_data fig)
    (mkLayout (update_legend (legend new) (legend old))
              (update_axis (xaxis new) (xaxis old))
              (update_axis (yaxis new) (yaxis old))
              (upd (hovermode new) (hovermode old))
              (upd (paper_bgcolor new) (paper_bgcolor old))
              (upd (plot_bgcolor new) (plot_bgcolor old))
              (upd (font_color new) (font_color old))).

(** [fig.update_xaxes(...)] and [fig.update_yaxes(...)] *)
Definition update_xaxes (new : Axis) (fig : Figure) : Figure :=
  let old := fig_layout fig in
  mkFigure (fig_data fig)
    (mkLayout (legend old) (update_axis new (xaxis old)) (yaxis old) (hovermode old)
              (paper_bgcolor old) (plot_bgcolor old) (font_color old)).

Definition update_yaxes (new : Axis) (fig : Figure) : Figure :=
  let old := fig_layout fig in
  mkFigure (fig_data fig)
    (mkLayout (legend old) (xaxis old) (update_axis new (yaxis old)) (hovermode old)
              (paper_bgcolor old) (plot_bgcolor old) (font_color old)).

(* ===================================================================== *)
(** ** The module's state and its monad *)
(* ===================================================================== *)

(** The module keeps one global variable that its functions can reach:
    [data], the table loaded when the module is imported. *)
Record Globals : Type := mkGlobals {
  g_data : DataFrame
}.

(** A Python function of the module: it runs in the module's state, and
    either returns a value or raises; the state survives both. *)
Definition M (A : Type) : Type := Globals -> result A * Globals.

Definition ret {A} (a : A) : M A := fun g => (Ok a, g).

Definition bind {A B} (c : M A) (k : A -> M B) : M B :=
  fun g =>
    match c g with
    | (Ok a, g') => k a g'
    | (Err e, g') => (Err e, g')
    end.

(** A library call that can raise but does not touch the module's state. *)
Definition lift {A} (r : result A) : M A := fun g => (r, g).

(** Reading the global variable [data]. *)
Definition get_data : M DataFrame := fun g => (Ok (g_data g), g).

Notation "x <- c ;; k" := (bind c (fun x => k))
  (at level 61, c at next level, right associativity).

(* ===================================================================== *)
(** ** [load_data] *)
(* ===================================================================== *)

Section Loader.

(** [pd.to_datetime] without a format, on one value of the column: which
    layouts pandas recognises is left open, so that what is proved of the
    loader holds for all of them.  (Missing values, which pandas turns
    into [NaT], are outside the model.) *)
Variable to_datetime_infer : cell -> result Timestamp.

(** [[
    data3 = pd.read_csv('datos_energia.csv')
    data3['time'] = pd.to_datetime(data3['time'])
    data3.set_index('time', inplace=True)
    return data3
    ]] *)
Definition load_data (fs : FileSystem) : result DataFrame :=
  result_bind (read_csv fs "datos_energia.csv") (fun data3 =>
  result_bind (raw_getitem data3 "time") (fun time =>
  result_bind (result_map to_datetime_infer time) (fun time =>
  Ok (set_index data3 "time" time)))).

(** [data = load_data()], run once when the module is imported. *)
Definition import_module (fs : FileSystem) : result Globals :=
  result_bind (load_data fs) (fun data => Ok (mkGlobals data)).

End Loader.

(** The timestamps a source table holds in its [time] column. *)
Definition source_timestamps (to_datetime_infer : cell -> result Timestamp) (src : RawFrame)
  : result (list Timestamp) :=
  result_bind (raw_getitem src "time") (result_map to_datetime_infer).

(* ===================================================================== *)
(** ** [plot_series] *)
(* ===================================================================== *)

Definition observed_column : string := "AT_load_actual_entsoe_transparency".
Definition forecast_column : string := "forecast".
Definition upper_column : string := "Upper bound".
Definition lower_column : string := "Lower bound".

Definition required_columns : list string :=
  [observed_column; forecast_column; upper_column; lower_column].

Definition transparent : string := "rgba(0,0,0,0)".

Definition grid : Axis := mkAxis None (Some true) (Some 0.25%Q) (Some "#7C7C7C").

(** [[
      data_plot = data.loc[initial_date:]
      data_plot = data_plot[:-(120-proy)]
      fig = go.Figure([go.Scatter(...), go.Scatter(...), go.Scatter(...), go.Scatter(...)])
      fig.update_layout(legend=dict(...), yaxis_title=..., hovermode="x")
      fig.update_layout(paper_bgcolor=..., plot_bgcolor=..., font_color=...)
      fig.update_xaxes(showgrid=True, gridwidth=0.25, gridcolor='#7C7C7C')
      fig.update_yaxes(showgrid=True, gridwidth=0.25, gridcolor='#7C7C7C')
      return fig
      ]]
    The parameter [data] hides the global variable of the same name. *)
Definition plot_series (data : DataFrame) (initial_date : Timestamp) (proy : Z) : M Figure :=
  data_plot <- lift (loc_from data initial_date) ;;
  let data_plot := head_slice data_plot (- (120 - proy)) in
  y1 <- lift (getitem data_plot observed_column) ;;
  let t1 := mkScatter "Demanda energética" (index data_plot) y1 (Some "lines")
              (mkLine (Some "#188463") None None) None None None None in
  y2 <- lift (getitem data_plot forecast_column) ;;
  let t2 := mkScatter "Proyección" (index data_plot) y2 (Some "lines")
              (mkLine (Some "#bbffeb") None None) None None None None in
  y3 <- lift (getitem data_plot upper_column) ;;
  let t3 := mkScatter "Upper Bound" (index data_plot) y3 (Some "lines")
              (mkLine None (Some 0%Q) None) (Some (mkMarker (Some "#444"))) None None
              (Some false) in
  y4 <- lift (getitem data_plot lower_column) ;;
  let t4 := mkScatter "Lower Bound" (index data_plot) y4 (Some "lines")
              (mkLine None (Some 0%Q) None) (Some (mkMarker (Some "#444")))
              (Some "rgba(242, 255, 251, 0.3)") (Some "tonexty") (Some false) in
  let fig := go_Figure [t1; t2; t3; t4] in
  let fig := update_layout
               (mkLayout (mkLegend (Some "h") (Some "bottom") (Some 1.02%Q) (Some "right")
                                   (Some 1%Q))
                         empty_axis
                         (mkAxis (Some "Demanda total [MW]") None None None)
                         (Some "x") None None None)
               fig in
  let fig := update_layout
               (mkLayout empty_legend empty_axis empty_axis None
                         (Some transparent) (Some transparent) (Some "#2cfec1"))
               fig in
  let fig := update_xaxes grid fig in
  let fig := update_yaxes grid fig in
  ret fig.

(* ===================================================================== *)
(** ** The callback [update_output_div] *)
(* ===================================================================== *)

(** The callback, over the chart builder it calls.
    [[
      if ((date is not None) & (hour is not None) & (proy is not None)):
          hour = str(hour)
          minute = str(0)
          initial_date = date + " " + hour + ":" + minute
          initial_date = pd.to_datetime(initial_date, format="%Y-%m-%d %H:%M")
          plot = plot_series(data, initial_date, int(proy))
          return plot
      ]]
    When the test fails the function falls off its end, and so returns
    [None]. *)
Definition update_output_div_with (builder : DataFrame -> Timestamp -> Z -> M Figure)
    (date : option string) (hour : option Z) (proy : option Z) : M (option Figure) :=
  match date, hour, proy with
  | Some date, Some hour, Some proy =>
      let hour := str hour in
      let minute := str 0 in
      let initial_date := date ++ " " ++ hour ++ ":" ++ minute in
      initial_date <- lift (to_datetime initial_date "%Y-%m-%d %H:%M") ;;
      data <- get_data ;;
      plot <- builder data initial_date (int proy) ;;
      ret (Some plot)
  | _, _, _ => ret None
  end.

Definition update_output_div : option string -> option Z -> option Z -> M (option Figure) :=
  update_output_div_with plot_series.

(** The values the hour dropdown offers: [np.arange(0, 25)]. *)
Definition hour_options : list Z := map Z.of_nat (seq 0 25).

(* ===================================================================== *)
(** ** Dash: applying the outcome of the callback *)
(* ===================================================================== *)

(** The property the callback is declared to write:
    [Output("plot_series", "figure")].  [None] is JSON [null]. *)
Record Page : Type := mkPage {
  graph_figure : option Figure
}.

(** One round of the callback.  Dash writes the value the callback returns
    into the output property; [None] is a value like any other.  The
    property keeps its previous value only when the callback raises (an
    error, or [PreventUpdate]) or returns [no_update]; the module uses
    neither of the last two. *)
Definition dispatch (date : option string) (hour proy : option Z) (g : Globals) (p : Page)
  : Page * Globals :=
  match update_output_div date hour proy g with
  | (Ok v, g') => (mkPage v, g')
  | (Err _, g') => (p, g')
  end.

(* ===================================================================== *)
(** ** Vocabulary of the properties *)
(* ===================================================================== *)

Definition has_column (df : DataFrame) (name : string) : bool :=
  match column_position name (columns df) with
  | Some _ => true
  | None => false
  end.

(** The table has the four columns the chart needs. *)
Definition has_required (df : DataFrame) : bool :=
  forallb (has_column df) required_columns.

(** The number of points of the table from [start] to its end. *)
Definition points_from (df : DataFrame) (start : Timestamp) : nat :=
  length (filter (fun t => start <=? t) (index df)).

(** The timestamps of the table from [start] to its end. *)
Definition index_from (df : DataFrame) (start : Timestamp) : list Timestamp :=
  filter (fun t => start <=? t) (index df).

(** The part of the table a chart shows: the rows from [start] on, without
    the last [120 - proy] of them. *)
Definition window (df : DataFrame) (start : Timestamp) (proy : Z) : DataFrame :=
  head_slice (mkDataFrame (columns df) (filter (fun r => start <=? fst r) (rows df)))
             (- (120 - proy)).

Definition first_timestamp (df : DataFrame) : option Timestamp := hd_error (index df).

Definition last_timestamp (df : DataFrame) : option Timestamp :=
  match index df with
  | [] => None
  | t :: ts => Some (last ts t)
  end.

Definition minimum (ts : list Timestamp) : option Timestamp :=
  match ts with
  | [] => None
  | t :: ts' => Some (fold_left Z.min ts' t)
  end.

Definition maximum (ts : list Timestamp) : option Timestamp :=
  match ts with
  | [] => None
  | t :: ts' => Some (fold_left Z.max ts' t)
  end.

(** The first of the four columns, in the order the traces are built, that
    the table lacks. *)
Definition first_missing (df : DataFrame) : option string :=
  find (fun name => negb (has_column df name)) required_columns.

(** The cells that the column [name] of [df] has in the rows [rs]. *)
Definition column_cells (df : DataFrame) (name : string)
           (rs : list (Timestamp * list cell)) : list cell :=
  match column_position name (columns df) with
  | Some p => map (fun r => nth p (snd r) NaN) rs
  | None => []
  end.

(** The text an alternative, a directive and a whole format can match. *)
Definition alt_text (a : list charclass) (txt : list ascii) : Prop :=
  Forall2 (fun p c => p c = true) a txt.

Definition directive_text (d : directive) (txt : list ascii) : Prop :=
  match d with
  | DSpace => txt <> [] /\ Forall (fun c => is_space c = true) txt
  | DLit c => txt = [c]
  | _ => exists a, In a (directive_regex d) /\ alt_text a txt
  end.

Fixpoint format_text (ds : list directive) (txt : list ascii) : Prop :=
  match ds with
  | [] => txt = []
  | d :: ds' =>
      exists t1 t2, txt = (t1 ++ t2)%list /\ directive_text d t1 /\ format_text ds' t2
  end.

(** *** Sample data *)

Definition hour_ns : Z := 60 * ns_per_minute.

(** Row [i] of an hourly table that starts at 1970-01-01 00:00. *)
Definition sample_row (i : nat) : Timestamp * list cell :=
  let v := Z.of_nat i in
  (v * hour_ns,
   [Num (inject_Z (5000 + v)); Num (inject_Z (5010 + v)); Num (inject_Z (5100 + v));
    Num (inject_Z (4900 + v))]).

Definition sample_table (n : nat) : DataFrame :=
  mkDataFrame required_columns (map sample_row (seq 0 n)).

(** A table with the four columns whose three rows are not in
    chronological order: 01:00, 03:00, 02:00. *)
Definition unordered_table : DataFrame :=
  mkDataFrame required_columns [sample_row 1; sample_row 3; sample_row 2].

(** The same table without its [Lower bound] column. *)
Definition sample_table_no_lower (n : nat) : DataFrame :=
  mkDataFrame [observed_column; forecast_column; upper_column]
              (map (fun i => (fst (sample_row i), firstn 3 (snd (sample_row i)))) (seq 0 n)).

(** A reading of the [time] column for files that write their timestamps
    as [YYYY-MM-DD HH:MM]. *)
Definition to_datetime_minutes (c : cell) : result Timestamp :=
  match c with
  | Text s => to_datetime s "%Y-%m-%d %H:%M"
  | _ => Err (ValueError "unknown datetime string format")
  end.

Definition source_header : list string :=
  ["time"; observed_column; forecast_column; upper_column; lower_column].

(** A source whose two records are in chronological order ... *)
Definition source_in_order : RawFrame :=
  mkRawFrame source_header
    [[Text "2021-01-01 00:00"; Num 5946; Num 5950; Num 6100; Num 5800];
     [Text "2021-01-01 01:00"; Num 5726; Num 5730; Num 5900; Num 5600]].

(** ... and the same records the other way round. *)
Definition source_out_of_order : RawFrame :=
  mkRawFrame source_header
    [[Text "2021-01-01 01:00"; Num 5726; Num 5730; Num 5900; Num 5600];
     [Text "2021-01-01 00:00"; Num 5946; Num 5950; Num 6100; Num 5800]].

(** A source whose second and third records have no timestamp in their
    [time] field. *)
Definition unconverted_source : RawFrame :=
  mkRawFrame ["time"; forecast_column]
    [[Text "2021-01-01 00:00"; Num 1]; [Text "yesterday"; Num 2];
     [Text "tomorrow"; Num 3]].

Definition file_system_with (src : RawFrame) : FileSystem :=
  fun path => if String.eqb path "datos_energia.csv" then Some src else None.

Definition sample_globals : Globals := mkGlobals (sample_table 130).

(* ===================================================================== *)
(** ** The controls: [generate_control_card] *)
(* ===================================================================== *)

Definition ns_per_hour : Z := 60 * ns_per_minute.
Definition ns_per_day : Z := 24 * ns_per_hour.

(** [Timestamp.date()], as the number of days since 1970-01-01, and
    [Timestamp.hour]. *)
Definition timestamp_date (t : Timestamp) : Z := t / ns_per_day.
Definition timestamp_hour (t : Timestamp) : Z := (t / ns_per_hour) mod 24.

(** Python's [min] and [max] on a sequence: an empty one raises
    [ValueError]. *)
Definition py_min (l : list Z) : result Z :=
  match minimum l with
  | Some a => Ok a
  | None => Err (ValueError "min() arg is an empty sequence")
  end.

Definition py_max (l : list Z) : result Z :=
  match maximum l with
  | Some a => Ok a
  | None => Err (ValueError "max() arg is an empty sequence")
  end.

(** [t - dt.timedelta(days=n)] on a [Timestamp]: the result has to be a
    [Timestamp] again ([OutOfBoundsDatetime] otherwise). *)
Definition timestamp_minus_days (t : Timestamp) (n : Z) : result Timestamp :=
  let t' := t - n * ns_per_day in
  if (t' <? timestamp_min) || (timestamp_max <? t') then
    Err (ValueError "Out of bounds nanosecond timestamp")
  else Ok t'.

(** The properties that the control card computes: those of the date
    picker (dates are days since 1970-01-01), of the hour dropdown and of
    the slider. *)
Record ControlCard : Type := mkControlCard {
  min_date_allowed : Z;
  max_date_allowed : Z;
  initial_visible_month : Z;
  picker_date : Z;
  dropdown_options : list Z;
  dropdown_value : Z;
  slider_min : Z;
  slider_max : Z;
  slider_step : Z;
  slider_value : Z
}.

(** [[
      dcc.DatePickerSingle(
          min_date_allowed=min(data.index.date),
          max_date_allowed=max(data.index.date),
          initial_visible_month=min(data.index.date),
          date=max(data.index.date)-dt.timedelta(days=7))
      dcc.Dropdown(
          options=[{"label": i, "value": i} for i in np.arange(0,25)],
          value=pd.to_datetime(max(data.index)-dt.timedelta(days=7)).hour)
      dcc.Slider(min=0, max=119, step=1, value=0, ...)
      ]]
    [data] is the global variable. *)
Definition generate_control_card : M ControlCard :=
  data <- get_data ;;
  let dates := map timestamp_date (index data) in
  lo <- lift (py_min dates) ;;
  hi <- lift (py_max dates) ;;
  visible <- lift (py_min dates) ;;
  hi' <- lift (py_max dates) ;;
  latest <- lift (py_max (index data)) ;;
  week_before <- lift (timestamp_minus_days latest 7) ;;
  ret (mkControlCard lo hi visible (hi' - 7)
                     hour_options (timestamp_hour week_before)
                     0 119 1 0).

(** What the module does when it is imported: it loads the table and builds
    the layout, of which the control card is the part that reads the
    table. *)
Definition startup (to_datetime_infer : cell -> result Timestamp) (fs : FileSystem)
  : result (ControlCard * Globals) :=
  result_bind (import_module to_datetime_infer fs) (fun g =>
  match generate_control_card g with
  | (Ok card, g') => Ok (card, g')
  | (Err e, _) => Err e
  end).

(** *** Dates as text *)

(** The decimal digit of the units of [n]. *)
Definition digit_char (n : Z) : ascii := ascii_of_N (Z.to_N (48 + n mod 10)).

(** [n] in [width] decimal digits, padded with zeros on the left. *)
Fixpoint digits_of (width : nat) (n : Z) : list ascii :=
  match width with
  | O => []
  | S w => (digits_of w (n / 10) ++ [digit_char n])%list
  end.

(** [datetime.date(y, m, d).isoformat()], the form ([YYYY-MM-DD]) in which
    the date picker hands its date to the callback. *)
Definition isoformat_ymd (y m d : Z) : string :=
  string_of_list_ascii
    (digits_of 4 y ++ ["-"%char] ++ digits_of 2 m ++ ["-"%char] ++ digits_of 2 d)%list.

(** The civil date of a day number (proleptic Gregorian calendar). *)
Definition civil_from_days (days : Z) : Z * Z * Z :=
  let z := days + 719468 in
  let era := z / 146097 in
  let doe := z - era * 146097 in
  let yoe := (doe - doe / 1460 + doe / 36524 - doe / 146096) / 365 in
  let doy := doe - (365 * yoe + yoe / 4 - yoe / 100) in
  let mp := (5 * doy + 2) / 153 in
  let d := doy - (153 * mp + 2) / 5 + 1 in
  let m := if mp <? 10 then mp + 3 else mp - 9 in
  (yoe + era * 400 + (if m <=? 2 then 1 else 0), m, d).

(** [isoformat] of a date given as a day number. *)
Definition isoformat (days : Z) : string :=
  let '(y, m, d) := civil_from_days days in isoformat_ymd y m d.

(* ===================================================================== *)
(** * Properties *)
(* ===================================================================== *)

(** ** Slicing a monotonic index *)

Section Slicing.

Lemma monotonic_tail (a : Timestamp) (idx : list Timestamp) :
  is_monotonic_increasing (a :: idx) = true ->
  is_monotonic_increasing idx = true.
Proof.
  destruct idx as [|b idx]; [reflexivity|].
  cbn [is_monotonic_increasing]. intros H.
  apply andb_true_iff in H. exact (proj2 H).
Qed.

(** On a monotonic index nothing after an entry is below it. *)
Lemma monotonic_bounds (idx : list Timestamp) :
  forall a, is_monotonic_increasing (a :: idx) = true -> Forall (fun t => a <= t) idx.
Proof.
  induction idx as [|b idx IH]; intros a H; constructor.
  - cbn [is_monotonic_increasing] in H. apply andb_true_iff in H.
    destruct H as [H _]. now apply Z.leb_le.
  - cbn [is_monotonic_increasing] in H. apply andb_true_iff in H.
    destruct H as [Hab H]. apply Z.leb_le in Hab.
    specialize (IH b H).
    eapply Forall_impl; [|exact IH]. cbn. intros t Ht. lia.
Qed.

Lemma filter_keeps_all {A} (f : A -> bool) (l : list A) :
  Forall (fun a => f a = true) l -> filter f l = l.
Proof.
  induction 1 as [|a l Ha _ IH]; cbn; [reflexivity|].
  now rewrite Ha, IH.
Qed.

(** The positional slice that [searchsorted] selects holds the rows whose
    key is at least [x], and only those. *)
Lemma skipn_searchsorted_left (rs : list (Timestamp * list cell)) (x : Timestamp) :
  is_monotonic_increasing (map fst rs) = true ->
  skipn (searchsorted_left (map fst rs) x) rs = filter (fun r => x <=? fst r) rs.
Proof.
  induction rs as [|r rs IH]; intros Hm; [reflexivity|].
  cbn [map searchsorted_left filter]. cbn beta.
  destruct (Z.ltb_spec (fst r) x) as [Hlt|Hge];
    destruct (Z.leb_spec x (fst r)) as [Hle|Hgt]; try lia.
  - cbn [skipn]. apply IH. cbn [map] in Hm. eapply monotonic_tail; exact Hm.
  - cbn [skipn]. f_equal. symmetry. apply filter_keeps_all.
    cbn [map] in Hm. apply monotonic_bounds in Hm.
    rewrite Forall_map in Hm.
    eapply Forall_impl; [|exact Hm]. cbn. intros t Ht. apply Z.leb_le. lia.
Qed.

Lemma map_fst_filter (f : Timestamp -> bool) (rs : list (Timestamp * list cell)) :
  map fst (filter (fun r => f (fst r)) rs) = filter f (map fst rs).
Proof.
  induction rs as [|r rs IH]; cbn; [reflexivity|].
  destruct (f (fst r)); cbn; now rewrite IH.
Qed.

Lemma existsb_above (x : Timestamp) (l : list Timestamp) :
  Forall (fun t => x < t) l -> existsb (Z.eqb x) l = false.
Proof.
  induction 1 as [|t l Ht _ IH]; [reflexivity|].
  cbn. rewrite IH. destruct (Z.eqb_spec x t); [lia|reflexivity].
Qed.

Lemma first_position_above (x : Timestamp) (l : list Timestamp) :
  Forall (fun t => x < t) l -> first_position l x = None.
Proof.
  induction 1 as [|t l Ht _ IH]; [reflexivity|].
  cbn. rewrite IH. destruct (Z.eqb_spec t x); [lia|reflexivity].
Qed.

(** On an increasing index nothing equal to [x] comes after the run of
    entries equal to [x]. *)
Lemma one_run_monotonic (x : Timestamp) (l : list Timestamp) :
  is_monotonic_increasing (x :: l) = true ->
  existsb (Z.eqb x) (drop_while (Z.eqb x) l) = false.
Proof.
  induction l as [|b l IH]; intros Hm; [reflexivity|].
  cbn [drop_while]. destruct (Z.eqb_spec x b) as [<-|Hne].
  - apply IH. eapply monotonic_tail; exact Hm.
  - pose proof (monotonic_bounds _ _ Hm) as Hb.
    inversion Hb as [|? ? Hxb _]; subst.
    pose proof (monotonic_bounds _ _ (monotonic_tail _ _ Hm)) as Hl.
    apply existsb_above. constructor; [lia|].
    eapply Forall_impl; [|exact Hl]. cbn. intros t Ht. lia.
Qed.

(** On an increasing index the left bound is where [searchsorted] puts it,
    whether or not the label occurs. *)
Lemma get_slice_bound_left_monotonic (idx : list Timestamp) (x : Timestamp) :
  is_monotonic_increasing idx = true ->
  get_slice_bound_left idx x = Ok (searchsorted_left idx x).
Proof.
  unfold get_slice_bound_left.
  induction idx as [|t idx IH]; intros Hm; [reflexivity|].
  rewrite Hm. pose proof (monotonic_tail _ _ Hm) as Hm'.
  specialize (IH Hm'). rewrite Hm' in IH.
  unfold one_run in *. cbn [first_position searchsorted_left drop_while].
  destruct (Z.compare_spec t x) as [->|Hlt|Hgt].
  - (* the label is the first entry *)
    rewrite Z.eqb_refl, Z.ltb_irrefl. cbn [negb drop_while].
    rewrite Z.eqb_refl. now rewrite (one_run_monotonic _ _ Hm).
  - (* the first entry is below the label *)
    replace (t =? x) with false by (symmetry; apply Z.eqb_neq; lia).
    replace (x =? t) with false by (symmetry; apply Z.eqb_neq; lia).
    replace (t <? x) with true by (symmetry; apply Z.ltb_lt; lia).
    cbn [negb].
    destruct (first_position idx x) as [p|]; cbn [option_map].
    + destruct (negb _); [|discriminate]. now injection IH as ->.
    + reflexivity.
  - (* the first entry is above the label, and so are all the others *)
    replace (t =? x) with false by (symmetry; apply Z.eqb_neq; lia).
    replace (t <? x) with false by (symmetry; apply Z.ltb_ge; lia).
    rewrite first_position_above; [reflexivity|].
    pose proof (monotonic_bounds _ _ Hm) as Hb.
    eapply Forall_impl; [|exact Hb]. cbn. intros u Hu. lia.
Qed.

Lemma loc_from_monotonic (df : DataFrame) (start : Timestamp) :
  is_monotonic_increasing (index df) = true ->
  loc_from df start =
    Ok (mkDataFrame (columns df) (filter (fun r => start <=? fst r) (rows df))).
Proof.
  intros Hm. unfold loc_from. rewrite (get_slice_bound_left_monotonic _ _ Hm).
  cbn [result_bind]. unfold index in *. now rewrite skipn_searchsorted_left.
Qed.

Lemma slice_stop_le (len : nat) (stop : Z) : (slice_stop len stop <= len)%nat.
Proof.
  unfold slice_stop. destruct (stop <? 0) eqn:E.
  - apply Z.ltb_lt in E. lia.
  - apply Z.ltb_ge in E. lia.
Qed.

(** The number of rows that [df[:-(120-proy)]] keeps. *)
Lemma slice_stop_trim (len : nat) (proy : Z) :
  proy <= 119 ->
  Z.of_nat (slice_stop len (- (120 - proy))) = Z.max 0 (Z.of_nat len - (120 - proy)).
Proof.
  intros Hp. unfold slice_stop.
  replace (- (120 - proy) <? 0) with true by (symmetry; apply Z.ltb_lt; lia).
  lia.
Qed.

Lemma head_slice_rows (df : DataFrame) (stop : Z) :
  length (rows (head_slice df stop)) = slice_stop (length (rows df)) stop.
Proof.
  cbn. apply firstn_length_le. apply slice_stop_le.
Qed.

Lemma getitem_has_column (df : DataFrame) (name : string) :
  has_column df name = true ->
  getitem df name = Ok (map (fun r => nth (match column_position name (columns df) with
                                           | Some p => p
                                           | None => 0%nat
                                           end) (snd r) NaN) (rows df)).
Proof.
  unfold has_column, getitem.
  destruct (column_position name (columns df)); [reflexivity|discriminate].
Qed.

Lemma getitem_length (df : DataFrame) (name : string) (ys : list cell) :
  getitem df name = Ok ys -> length ys = length (index df).
Proof.
  unfold getitem, index.
  destruct (column_position name (columns df)); [|discriminate].
  intros H. injection H as <-. now rewrite !length_map.
Qed.

Lemma getitem_missing (df : DataFrame) (name : string) :
  has_column df name = false -> getitem df name = Err (KeyError (KStr name)).
Proof.
  unfold has_column, getitem.
  destruct (column_position name (columns df)); [discriminate|reflexivity].
Qed.

End Slicing.

(** ** What [plot_series] returns *)

Section ChartBuilder.

Lemma has_required_columns (df : DataFrame) :
  has_required df = true ->
  has_column df observed_column = true /\ has_column df forecast_column = true /\
  has_column df upper_column = true /\ has_column df lower_column = true.
Proof.
  unfold has_required, required_columns. cbn [forallb].
  rewrite !andb_true_iff. tauto.
Qed.

Lemma has_column_window (df : DataFrame) (start : Timestamp) (proy : Z) (name : string) :
  has_column (window df start proy) name = has_column df name.
Proof. reflexivity. Qed.

Lemma getitem_window (df : DataFrame) (start : Timestamp) (proy : Z) (name : string) :
  has_column df name = true ->
  exists ys, getitem (window df start proy) name = Ok ys /\
             length ys = length (index (window df start proy)).
Proof.
  intros H. rewrite <- (has_column_window df start proy) in H.
  rewrite (getitem_has_column _ _ H). eexists. split; [reflexivity|].
  unfold index. now rewrite !length_map.
Qed.

(** With the four columns present and a monotonic index, [plot_series]
    returns a figure of four traces over the timestamps of [window], each
    with the values of its column, and leaves the module's state alone. *)
Lemma plot_series_returns (df : DataFrame) (start : Timestamp) (proy : Z) (g : Globals) :
  has_required df = true ->
  is_monotonic_increasing (index df) = true ->
  exists fig y1 y2 y3 y4,
    plot_series df start proy g = (Ok fig, g) /\
    getitem (window df start proy) observed_column = Ok y1 /\
    getitem (window df start proy) forecast_column = Ok y2 /\
    getitem (window df start proy) upper_column = Ok y3 /\
    getitem (window df start proy) lower_column = Ok y4 /\
    map sc_x (fig_data fig) = repeat (index (window df start proy)) 4 /\
    map sc_y (fig_data fig) = [y1; y2; y3; y4].
Proof.
  intros Hreq Hm.
  destruct (has_required_columns _ Hreq) as (H1 & H2 & H3 & H4).
  destruct (getitem_window df start proy _ H1) as (y1 & E1 & _).
  destruct (getitem_window df start proy _ H2) as (y2 & E2 & _).
  destruct (getitem_window df start proy _ H3) as (y3 & E3 & _).
  destruct (getitem_window df start proy _ H4) as (y4 & E4 & _).
  unfold plot_series, bind, lift.
  rewrite (loc_from_monotonic _ _ Hm).
  fold (window df start proy).
  rewrite E1, E2, E3, E4.
  eexists _, y1, y2, y3, y4.
  split; [reflexivity|]. repeat split; assumption || reflexivity.
Qed.

Lemma window_length (df : DataFrame) (start : Timestamp) (proy : Z) :
  proy <= 119 ->
  Z.of_nat (length (index (window df start proy)))
  = Z.max 0 (Z.of_nat (points_from df start) - (120 - proy)).
Proof.
  intros Hp. unfold index at 1. rewrite length_map.
  unfold window. rewrite head_slice_rows. cbn [rows].
  rewrite slice_stop_trim by assumption.
  unfold points_from, index.
  now rewrite <- (map_fst_filter (fun t => start <=? t)), length_map.
Qed.

(** The visible timestamps are the timestamps from [start] on, short of
    the ones the trimming removes. *)
Lemma window_prefix (df : DataFrame) (start : Timestamp) (proy : Z) :
  exists dropped,
    index_from df start = (index (window df start proy) ++ dropped)%list /\
    length dropped
    = (points_from df start - length (index (window df start proy)))%nat.
Proof.
  unfold index_from, points_from, window, head_slice, index. cbn [rows].
  rewrite <- (map_fst_filter (fun t => start <=? t)).
  set (rs := filter _ (rows df)).
  set (n := slice_stop (length rs) _).
  exists (map fst (skipn n rs)). split.
  - rewrite <- map_app. now rewrite firstn_skipn.
  - rewrite !length_map, length_skipn, length_firstn.
    pose proof (slice_stop_le (length rs) (- (120 - proy))). fold n in H. lia.
Qed.

End ChartBuilder.

Section ChartShape.

Lemma four_traces (l : list Scatter) (xs : list Timestamp) (y1 y2 y3 y4 : list cell) :
  map sc_x l = repeat xs 4 -> map sc_y l = [y1; y2; y3; y4] ->
  exists t1 t2 t3 t4,
    l = [t1; t2; t3; t4] /\
    (sc_x t1 = xs /\ sc_x t2 = xs /\ sc_x t3 = xs /\ sc_x t4 = xs) /\
    (sc_y t1 = y1 /\ sc_y t2 = y2 /\ sc_y t3 = y3 /\ sc_y t4 = y4).
Proof.
  intros Hx Hy.
  destruct l as [|t1 [|t2 [|t3 [|t4 [|t5 l]]]]]; try discriminate.
  cbn in Hx, Hy. injection Hx as X1 X2 X3 X4. injection Hy as Y1 Y2 Y3 Y4.
  exists t1, t2, t3, t4. repeat split; assumption || reflexivity.
Qed.

Lemma loc_from_columns (df d : DataFrame) (start : Timestamp) :
  loc_from df start = Ok d -> columns d = columns df.
Proof.
  unfold loc_from.
  destruct (get_slice_bound_left (index df) start); [now intros [= <-]|discriminate].
Qed.

(** Whatever the table, a figure that [plot_series] returns has four
    traces over one and the same sequence of timestamps. *)
Lemma plot_series_inv (df : DataFrame) (start : Timestamp) (proy : Z) (g g' : Globals)
      (fig : Figure) :
  plot_series df start proy g = (Ok fig, g') ->
  exists d y1 y2 y3 y4,
    loc_from df start = Ok d /\
    map sc_x (fig_data fig) = repeat (index (head_slice d (- (120 - proy)))) 4 /\
    map sc_y (fig_data fig) = [y1; y2; y3; y4] /\
    g' = g.
Proof.
  unfold plot_series, bind, lift, ret.
  destruct (loc_from df start) as [d|e]; [|discriminate].
  destruct (getitem _ observed_column) as [y1|]; [|discriminate].
  destruct (getitem _ forecast_column) as [y2|]; [|discriminate].
  destruct (getitem _ upper_column) as [y3|]; [|discriminate].
  destruct (getitem _ lower_column) as [y4|]; [|discriminate].
  intros [= <- <-]. exists d, y1, y2, y3, y4. repeat split; reflexivity.
Qed.

End ChartShape.

(** ** The length of the visible series *)

(** C1.  For a table with the four columns and a chronological index, a
    horizon [proy] in [0, 119] and a [start] with at least 120 points from
    it to the end of the table, [plot_series] returns four series, all of
    the same length, namely the number of points from [start] to the end of
    the table minus [120 - proy]; the series are the selected sub-range
    without its last [120 - proy] records, which is 1 record for
    [proy = 119] and 120 records for [proy = 0]. *)
Theorem plot_series_length (df : DataFrame) (start : Timestamp) (proy : Z) (g : Globals) :
  has_required df = true ->
  is_monotonic_increasing (index df) = true ->
  0 <= proy <= 119 ->
  (120 <= points_from df start)%nat ->
  exists fig dropped,
    plot_series df start proy g = (Ok fig, g) /\
    length (fig_data fig) = 4%nat /\
    Forall (fun s =>
              Z.of_nat (length (sc_x s)) = Z.of_nat (points_from df start) - (120 - proy) /\
              length (sc_y s) = length (sc_x s) /\
              index_from df start = (sc_x s ++ dropped)%list)
           (fig_data fig) /\
    Z.of_nat (length dropped) = 120 - proy /\
    (proy = 119 -> length dropped = 1%nat) /\
    (proy = 0 -> length dropped = 120%nat).
Proof.
  intros Hreq Hm Hp Hn.
  destruct (plot_series_returns df start proy g Hreq Hm)
    as (fig & y1 & y2 & y3 & y4 & Hfig & E1 & E2 & E3 & E4 & Hx & Hy).
  destruct (four_traces _ _ _ _ _ _ Hx Hy)
    as (t1 & t2 & t3 & t4 & Hl & (X1 & X2 & X3 & X4) & (Y1 & Y2 & Y3 & Y4)).
  destruct (window_prefix df start proy) as (dropped & Hd & Hdl).
  pose proof (window_length df start proy (proj2 Hp)) as Hw.
  apply getitem_length in E1, E2, E3, E4.
  exists fig, dropped. split; [exact Hfig|]. rewrite Hl.
  split; [reflexivity|]. split.
  - repeat constructor; rewrite ?X1, ?X2, ?X3, ?X4, ?Y1, ?Y2, ?Y3, ?Y4;
      try assumption; lia.
  - repeat split; lia.
Qed.

Lemma plot_series_length_witness :
  has_required (sample_table 130) = true /\
  is_monotonic_increasing (index (sample_table 130)) = true /\
  0 <= 119 <= 119 /\
  (120 <= points_from (sample_table 130) (3 * hour_ns))%nat /\
  exists fig dropped,
    plot_series (sample_table 130) (3 * hour_ns) 119 sample_globals = (Ok fig, sample_globals) /\
    length (fig_data fig) = 4%nat /\
    Forall (fun s =>
              Z.of_nat (length (sc_x s))
              = Z.of_nat (points_from (sample_table 130) (3 * hour_ns)) - (120 - 119) /\
              length (sc_y s) = length (sc_x s) /\
              index_from (sample_table 130) (3 * hour_ns) = (sc_x s ++ dropped)%list)
           (fig_data fig) /\
    Z.of_nat (length dropped) = 120 - 119 /\
    (119 = 119 -> length dropped = 1%nat) /\
    (119 = 0 -> length dropped = 120%nat).
Proof.
  assert (H1 : has_required (sample_table 130) = true) by (vm_compute; reflexivity).
  assert (H2 : is_monotonic_increasing (index (sample_table 130)) = true)
    by (vm_compute; reflexivity).
  assert (H3 : 0 <= 119 <= 119) by lia.
  assert (H4 : (120 <= points_from (sample_table 130) (3 * hour_ns))%nat)
    by (apply Nat.leb_le; vm_compute; reflexivity).
  repeat split; try assumption; try lia.
  exact (plot_series_length (sample_table 130) (3 * hour_ns) 119 sample_globals H1 H2 H3 H4).
Defined.




(** ** The series share their timestamps *)

(** C5.  The four series of a chart have the same x-coordinates: with the
    four columns present and a chronological index [plot_series] returns a
    chart, and in every chart it returns, for any table, the four traces
    carry one and the same sequence of timestamps. *)
Theorem plot_series_shared_x (df : DataFrame) (start : Timestamp) (proy : Z) (g : Globals) :
  (has_required df = true ->
   is_monotonic_increasing (index df) = true ->
   exists fig, plot_series df start proy g = (Ok fig, g)) /\
  (forall fig g',
     plot_series df start proy g = (Ok fig, g') ->
     exists xs,
       length (fig_data fig) = 4%nat /\
       Forall (fun s => sc_x s = xs) (fig_data fig)).
Proof.
  split.
  - intros Hreq Hm.
    destruct (plot_series_returns df start proy g Hreq Hm) as (fig & _ & _ & _ & _ & Hfig & _).
    now exists fig.
  - intros fig g' Hfig.
    destruct (plot_series_inv _ _ _ _ _ _ Hfig) as (d & y1 & y2 & y3 & y4 & _ & Hx & Hy & _).
    destruct (four_traces _ _ _ _ _ _ Hx Hy)
      as (t1 & t2 & t3 & t4 & Hl & (X1 & X2 & X3 & X4) & _).
    exists (index (head_slice d (- (120 - proy)))). rewrite Hl. split; [reflexivity|].
    repeat (constructor; [assumption|]). constructor.
Qed.

Lemma plot_series_shared_x_witness :
  has_required (sample_table 130) = true /\
  is_monotonic_increasing (index (sample_table 130)) = true /\
  exists fig xs,
    plot_series (sample_table 130) (3 * hour_ns) 60 sample_globals = (Ok fig, sample_globals) /\
    length (fig_data fig) = 4%nat /\
    Forall (fun s => sc_x s = xs) (fig_data fig).
Proof.
  assert (H1 : has_required (sample_table 130) = true) by (vm_compute; reflexivity).
  assert (H2 : is_monotonic_increasing (index (sample_table 130)) = true)
    by (vm_compute; reflexivity).
  split; [exact H1|]. split; [exact H2|].
  destruct (plot_series_shared_x (sample_table 130) (3 * hour_ns) 60 sample_globals)
    as [Hret Hshared].
  destruct (Hret H1 H2) as [fig Hfig].
  destruct (Hshared fig sample_globals Hfig) as [xs Hxs].
  exists fig, xs. split; [exact Hfig|exact Hxs].
Defined.

(** ** Slicing never fails on a chronological table *)

Lemma points_from_past (df : DataFrame) (start : Timestamp) :
  Forall (fun t => t < start) (index df) -> points_from df start = 0%nat.
Proof.
  unfold points_from. generalize (index df) as idx.
  induction 1 as [|t ts Ht _ IH]; [reflexivity|].
  cbn. destruct (Z.leb_spec start t); [lia|exact IH].
Qed.

(** C9, as amended.  For a table with the four columns and a chronological
    index, any [start] and any [proy] in [0, 119], [plot_series] returns a
    chart; its
    four series have the length [max 0 (n - (120 - proy))], where [n] is
    the number of points from [start] to the end of the table; and when
    [n <= 120 - proy] (as when [start] is past the last timestamp, where
    [n = 0]) all four series are empty. *)
Theorem plot_series_total (df : DataFrame) (start : Timestamp) (proy : Z) (g : Globals) :
  has_required df = true ->
  is_monotonic_increasing (index df) = true ->
  0 <= proy <= 119 ->
  exists fig,
    plot_series df start proy g = (Ok fig, g) /\
    length (fig_data fig) = 4%nat /\
    Forall (fun s =>
              Z.of_nat (length (sc_x s))
              = Z.max 0 (Z.of_nat (points_from df start) - (120 - proy)) /\
              length (sc_y s) = length (sc_x s))
           (fig_data fig) /\
    (Z.of_nat (points_from df start) <= 120 - proy ->
     Forall (fun s => sc_x s = [] /\ sc_y s = []) (fig_data fig)) /\
    (Forall (fun t => t < start) (index df) ->
     Forall (fun s => sc_x s = [] /\ sc_y s = []) (fig_data fig)).
Proof.
  intros Hreq Hm Hp.
  destruct (plot_series_returns df start proy g Hreq Hm)
    as (fig & y1 & y2 & y3 & y4 & Hfig & E1 & E2 & E3 & E4 & Hx & Hy).
  destruct (four_traces _ _ _ _ _ _ Hx Hy)
    as (t1 & t2 & t3 & t4 & Hl & (X1 & X2 & X3 & X4) & (Y1 & Y2 & Y3 & Y4)).
  pose proof (window_length df start proy (proj2 Hp)) as Hw.
  apply getitem_length in E1, E2, E3, E4.
  assert (Hempty : Z.of_nat (points_from df start) <= 120 - proy ->
                   Forall (fun s => sc_x s = [] /\ sc_y s = []) (fig_data fig)).
  { intros Hn. rewrite Hl.
    repeat constructor; apply length_zero_iff_nil;
      rewrite ?X1, ?X2, ?X3, ?X4, ?Y1, ?Y2, ?Y3, ?Y4; lia. }
  exists fig. split; [exact Hfig|]. split; [now rewrite Hl|]. split; [|split].
  - rewrite Hl.
    repeat constructor; rewrite ?X1, ?X2, ?X3, ?X4, ?Y1, ?Y2, ?Y3, ?Y4; lia.
  - exact Hempty.
  - intros Hpast. apply Hempty.
    rewrite (points_from_past _ _ Hpast). lia.
Qed.

Lemma plot_series_total_witness :
  has_required (sample_table 130) = true /\
  is_monotonic_increasing (index (sample_table 130)) = true /\
  Forall (fun t => t < 200 * hour_ns) (index (sample_table 130)) /\
  exists fig,
    plot_series (sample_table 130) (200 * hour_ns) 119 sample_globals
    = (Ok fig, sample_globals) /\
    Forall (fun s => sc_x s = [] /\ sc_y s = []) (fig_data fig).
Proof.
  assert (H1 : has_required (sample_table 130) = true) by (vm_compute; reflexivity).
  assert (H2 : is_monotonic_increasing (index (sample_table 130)) = true)
    by (vm_compute; reflexivity).
  assert (H3 : Forall (fun t => t < 200 * hour_ns) (index (sample_table 130))).
  { apply Forall_forall. intros t Ht. apply Z.ltb_lt.
    revert t Ht. apply (proj1 (forallb_forall _ _)). vm_compute. reflexivity. }
  split; [exact H1|]. split; [exact H2|]. split; [exact H3|].
  destruct (plot_series_total (sample_table 130) (200 * hour_ns) 119 sample_globals H1 H2)
    as (fig & Hfig & _ & _ & _ & Hpast); [lia|].
  exists fig. split; [exact Hfig|exact (Hpast H3)].
Defined.

(** C9, as stated, fails: a table with the four columns whose index is not
    in chronological order (01:00, 03:00, 02:00) has no left bound for a
    [start] that is not one of its timestamps, and [data.loc[start:]]
    raises [KeyError]. *)
Lemma plot_series_unordered_raises :
  has_required unordered_table = true /\
  is_monotonic_increasing (index unordered_table) = false /\
  plot_series unordered_table 0 0 sample_globals
  = (Err (KeyError (KStamp 0)), sample_globals).
Proof.
  split; [reflexivity|]. split; [reflexivity|]. vm_compute. reflexivity.
Qed.

(** ** A missing column *)

Lemma has_column_sliced (df d : DataFrame) (start : Timestamp) (stop : Z) (name : string) :
  loc_from df start = Ok d -> has_column (head_slice d stop) name = has_column df name.
Proof.
  intros H. unfold has_column, head_slice. cbn [columns].
  now rewrite (loc_from_columns _ _ _ H).
Qed.

Lemma loc_from_raises (df : DataFrame) (start : Timestamp) (e : exn) :
  loc_from df start = Err e ->
  is_monotonic_increasing (index df) = false /\ exists k, e = KeyError k.
Proof.
  intros H. split.
  - destruct (is_monotonic_increasing (index df)) eqn:Hm; [|reflexivity].
    rewrite (loc_from_monotonic _ _ Hm) in H. discriminate.
  - unfold loc_from, get_slice_bound_left in H.
    destruct (first_position _ _).
    + destruct (one_run _ _); [discriminate|]. injection H as <-. now eexists.
    + destruct (is_monotonic_increasing _); [discriminate|].
      destruct (is_monotonic_decreasing _); [discriminate|].
      injection H as <-. now eexists.
Qed.

(** C4.  On a table without the [Lower bound] column, [plot_series] raises
    [KeyError] whatever [start] and [proy] are, and so returns no chart;
    when the index is chronological the key of the error is the name of a
    required column that the table lacks. *)
Theorem plot_series_missing_lower (df : DataFrame) (start : Timestamp) (proy : Z)
        (g : Globals) :
  has_column df lower_column = false ->
  exists k,
    plot_series df start proy g = (Err (KeyError k), g) /\
    (is_monotonic_increasing (index df) = true ->
     exists name,
       k = KStr name /\ In name required_columns /\ has_column df name = false).
Proof.
  intros Hlow. unfold plot_series, bind, lift.
  destruct (loc_from df start) as [d|e] eqn:Hloc.
  - assert (Hc : forall name, has_column (head_slice d (- (120 - proy))) name
                              = has_column df name)
      by (intros name; eapply has_column_sliced; exact Hloc).
    destruct (has_column df observed_column) eqn:H1.
    2:{ rewrite getitem_missing by now rewrite Hc.
        eexists. split; [reflexivity|]. intros _. exists observed_column.
        split; [reflexivity|]. split; [|exact H1]. cbn. tauto. }
    rewrite (getitem_has_column (head_slice d _) observed_column) by now rewrite Hc.
    destruct (has_column df forecast_column) eqn:H2.
    2:{ rewrite getitem_missing by now rewrite Hc.
        eexists. split; [reflexivity|]. intros _. exists forecast_column.
        split; [reflexivity|]. split; [|exact H2]. cbn. tauto. }
    rewrite (getitem_has_column (head_slice d _) forecast_column) by now rewrite Hc.
    destruct (has_column df upper_column) eqn:H3.
    2:{ rewrite getitem_missing by now rewrite Hc.
        eexists. split; [reflexivity|]. intros _. exists upper_column.
        split; [reflexivity|]. split; [|exact H3]. cbn. tauto. }
    rewrite (getitem_has_column (head_slice d _) upper_column) by now rewrite Hc.
    rewrite getitem_missing by now rewrite Hc.
    eexists. split; [reflexivity|]. intros _. exists lower_column.
    split; [reflexivity|]. split; [|exact Hlow]. cbn. tauto.
  - destruct (loc_from_raises _ _ _ Hloc) as (Hm & k & ->).
    exists k. split; [reflexivity|]. intros Hm'. congruence.
Qed.

Lemma plot_series_missing_lower_witness :
  has_column (sample_table_no_lower 130) lower_column = false /\
  is_monotonic_increasing (index (sample_table_no_lower 130)) = true /\
  exists k name,
    plot_series (sample_table_no_lower 130) (3 * hour_ns) 0 sample_globals
    = (Err (KeyError k), sample_globals) /\
    k = KStr name /\ In name required_columns /\
    has_column (sample_table_no_lower 130) name = false.
Proof.
  assert (H1 : has_column (sample_table_no_lower 130) lower_column = false)
    by (vm_compute; reflexivity).
  assert (H2 : is_monotonic_increasing (index (sample_table_no_lower 130)) = true)
    by (vm_compute; reflexivity).
  split; [exact H1|]. split; [exact H2|].
  destruct (plot_series_missing_lower (sample_table_no_lower 130) (3 * hour_ns) 0
                                      sample_globals H1) as (k & Hk & Hin).
  destruct (Hin H2) as (name & Hname).
  exists k, name. split; [exact Hk|exact Hname].
Defined.

(** ** The chart *)

(** C7.  For a table with the four columns and a chronological index,
    [plot_series] returns exactly four traces, in this order: the observed
    demand as a solid line (mode [lines], no dash, default width); the
    forecast as a line in the pale colour [#bbffeb]; the upper bound as a
    line of width 0 kept out of the legend; the lower bound as a line of
    width 0 kept out of the legend and filled to the previous trace
    ([tonexty]).  The legend is horizontal and anchored by its bottom right
    corner at [(1, 1.02)], the top right of the plot; both backgrounds are
    transparent; hovering is by x; both axes show their grid; the y axis
    is titled [Demanda total [MW]]. *)
Theorem plot_series_chart (df : DataFrame) (start : Timestamp) (proy : Z) (g : Globals) :
  has_required df = true ->
  is_monotonic_increasing (index df) = true ->
  exists fig observed forecast upper lower,
    plot_series df start proy g = (Ok fig, g) /\
    fig_data fig = [observed; forecast; upper; lower] /\
    (getitem (window df start proy) observed_column = Ok (sc_y observed) /\
     sc_mode observed = Some "lines" /\
     sc_line observed = mkLine (Some "#188463") None None /\
     sc_showlegend observed = None /\ sc_fill observed = None) /\
    (getitem (window df start proy) forecast_column = Ok (sc_y forecast) /\
     sc_mode forecast = Some "lines" /\
     sc_line forecast = mkLine (Some "#bbffeb") None None /\
     sc_showlegend forecast = None /\ sc_fill forecast = None) /\
    (getitem (window df start proy) upper_column = Ok (sc_y upper) /\
     sc_mode upper = Some "lines" /\
     line_width (sc_line upper) = Some 0%Q /\
     sc_showlegend upper = Some false /\ sc_fill upper = None) /\
    (getitem (window df start proy) lower_column = Ok (sc_y lower) /\
     sc_mode lower = Some "lines" /\
     line_width (sc_line lower) = Some 0%Q /\
     sc_showlegend lower = Some false /\ sc_fill lower = Some "tonexty") /\
    legend (fig_layout fig)
    = mkLegend (Some "h") (Some "bottom") (Some 1.02%Q) (Some "right") (Some 1%Q) /\
    paper_bgcolor (fig_layout fig) = Some "rgba(0,0,0,0)" /\
    plot_bgcolor (fig_layout fig) = Some "rgba(0,0,0,0)" /\
    hovermode (fig_layout fig) = Some "x" /\
    showgrid (xaxis (fig_layout fig)) = Some true /\
    showgrid (yaxis (fig_layout fig)) = Some true /\
    axis_title (yaxis (fig_layout fig)) = Some "Demanda total [MW]".
Proof.
  intros Hreq Hm.
  destruct (has_required_columns _ Hreq) as (H1 & H2 & H3 & H4).
  destruct (getitem_window df start proy _ H1) as (y1 & E1 & _).
  destruct (getitem_window df start proy _ H2) as (y2 & E2 & _).
  destruct (getitem_window df start proy _ H3) as (y3 & E3 & _).
  destruct (getitem_window df start proy _ H4) as (y4 & E4 & _).
  unfold plot_series, bind, lift.
  rewrite (loc_from_monotonic _ _ Hm).
  fold (window df start proy).
  rewrite E1, E2, E3, E4.
  do 5 eexists. split; [reflexivity|]. split; [reflexivity|].
  repeat split; reflexivity.
Qed.

Lemma plot_series_chart_witness :
  has_required (sample_table 130) = true /\
  is_monotonic_increasing (index (sample_table 130)) = true /\
  exists fig,
    plot_series (sample_table 130) (3 * hour_ns) 24 sample_globals = (Ok fig, sample_globals) /\
    map sc_name (fig_data fig)
    = ["Demanda energética"; "Proyección"; "Upper Bound"; "Lower Bound"] /\
    map sc_fill (fig_data fig) = [None; None; None; Some "tonexty"] /\
    hovermode (fig_layout fig) = Some "x".
Proof.
  assert (H1 : has_required (sample_table 130) = true) by (vm_compute; reflexivity).
  assert (H2 : is_monotonic_increasing (index (sample_table 130)) = true)
    by (vm_compute; reflexivity).
  split; [exact H1|]. split; [exact H2|].
  destruct (plot_series_chart (sample_table 130) (3 * hour_ns) 24 sample_globals H1 H2)
    as (fig & t1 & t2 & t3 & t4 & Hfig & Hdata & _ & _ & _ & _ & _ & _ & _ & Hhover & _).
  exists fig. split; [exact Hfig|].
  assert (Hrun : fst (plot_series (sample_table 130) (3 * hour_ns) 24 sample_globals) = Ok fig)
    by now rewrite Hfig.
  vm_compute in Hrun. injection Hrun as <-.
  repeat split; reflexivity.
Defined.

(** ** What a format can match *)

Section Strptime.

Lemma match_alt_sound (a : list charclass) :
  forall s txt rest,
    match_alt a s = Some (txt, rest) -> s = (txt ++ rest)%list /\ alt_text a txt.
Proof.
  induction a as [|p a IH]; intros s txt rest H.
  - cbn in H. injection H as <- <-. split; [reflexivity|constructor].
  - destruct s as [|c s]; [discriminate|]. cbn in H.
    destruct (p c) eqn:Hp; [|discriminate].
    destruct (match_alt a s) as [[txt' rest']|] eqn:E; [|discriminate].
    injection H as <- <-. destruct (IH _ _ _ E) as [-> Ha].
    split; [reflexivity|]. now constructor.
Qed.

Lemma match_spaces_sound (s : list ascii) :
  forall txt rest,
    In (txt, rest) (match_spaces s) ->
    s = (txt ++ rest)%list /\ txt <> [] /\ Forall (fun c => is_space c = true) txt.
Proof.
  induction s as [|c s IH]; intros txt rest H; [contradiction|].
  cbn in H. destruct (is_space c) eqn:Hc; [|contradiction].
  apply in_app_or in H. destruct H as [H|[H|[]]].
  - apply in_map_iff in H. destruct H as ([txt' rest'] & E & Hin).
    cbn in E. injection E as <- <-.
    destruct (IH _ _ Hin) as (-> & _ & Hall).
    split; [reflexivity|]. split; [discriminate|]. now constructor.
  - injection H as <- <-. split; [reflexivity|]. split; [discriminate|].
    repeat constructor. exact Hc.
Qed.

Lemma match_regex_sound (d : directive) (f f' : fields) (s rest : list ascii) :
  In (f', rest)
     (flat_map (fun a =>
                  match match_alt a s with
                  | Some (txt, rest) => [(set_field d (int_of_text txt) f, rest)]
                  | None => []
                  end)
               (directive_regex d)) ->
  exists txt a, s = (txt ++ rest)%list /\ In a (directive_regex d) /\ alt_text a txt.
Proof.
  intros H. apply in_flat_map in H. destruct H as (a & Ha & H).
  destruct (match_alt a s) as [[txt rest']|] eqn:E; [|contradiction].
  destruct H as [H|[]]. injection H as _ <-.
  destruct (match_alt_sound _ _ _ _ E) as [-> Htxt].
  now exists txt, a.
Qed.

Lemma match_directive_sound (d : directive) (f f' : fields) (s rest : list ascii) :
  In (f', rest) (match_directive d f s) ->
  exists txt, s = (txt ++ rest)%list /\ directive_text d txt.
Proof.
  destruct d; cbn [match_directive directive_text]; intros H;
    try (apply match_regex_sound in H; destruct H as (txt & a & -> & Ha & Htxt);
         exists txt; split; [reflexivity|now exists a]).
  - apply in_map_iff in H. destruct H as ([txt rest'] & E & Hin).
    cbn in E. injection E as _ <-.
    destruct (match_spaces_sound _ _ _ Hin) as (-> & Hne & Hall).
    now exists txt.
  - destruct s as [|c' s]; [contradiction|].
    destruct (Ascii.eqb_spec c c') as [<-|]; [|contradiction].
    destruct H as [H|[]]. injection H as _ <-. now exists [c].
Qed.

Lemma match_format_sound (ds : list directive) :
  forall f f' s rest,
    In (f', rest) (match_format ds f s) ->
    exists txt, s = (txt ++ rest)%list /\ format_text ds txt.
Proof.
  induction ds as [|d ds IH]; intros f f' s rest H.
  - destruct H as [H|[]]. injection H as _ <-. now exists [].
  - cbn [match_format] in H. apply in_flat_map in H.
    destruct H as ([f1 r1] & H1 & H2). cbn [fst snd] in H2.
    destruct (match_directive_sound _ _ _ _ _ H1) as (t1 & -> & Ht1).
    destruct (IH _ _ _ _ H2) as (t2 & -> & Ht2).
    exists (t1 ++ t2)%list. split; [now rewrite app_assoc|].
    cbn [format_text]. now exists t1, t2.
Qed.

Lemma list_ascii_of_string_app (a b : string) :
  list_ascii_of_string (a ++ b)
  = (list_ascii_of_string a ++ list_ascii_of_string b)%list.
Proof.
  induction a as [|c a IH]; cbn; [reflexivity|now rewrite IH].
Qed.

(** Taking apart the match of an alternative of known length. *)
Ltac invert_alt :=
  repeat match goal with
         | H : alt_text (_ :: _) _ |- _ => inversion H; subst; clear H
         | H : alt_text [] _ |- _ => inversion H; subst; clear H
         | H : Forall2 _ (_ :: _) _ |- _ => inversion H; subst; clear H
         | H : Forall2 _ [] _ |- _ => inversion H; subst; clear H
         end.

(** A text that ends in [" 24:0"] is not matched by [%Y-%m-%d %H:%M]:
    the minute is the final [0]; the hour before the colon would be [4],
    with a [2] where white space is due, or [24], which [%H] rejects. *)
Lemma hour_24_not_matched (date : list ascii) :
  ~ format_text [DYear; DLit "-"; DMonth; DLit "-"; DDay; DSpace; DHour; DLit ":"; DMinute]
                (date ++ [" "; "2"; "4"; ":"; "0"])%char%list.
Proof.
  cbn [format_text directive_text].
  intros (tY & r1 & E1 & _ & tl1 & r2 & E2 & _ & tm & r3 & E3 & _ & tl2 & r4 & E4 & _ &
          td & r5 & E5 & _ & ws & r6 & E6 & (Hne & Hws) & th & r7 & E7 & (ah & Hah & Hh) &
          tc & r8 & E8 & -> & tmin & r9 & E9 & (am & Ham & Hmin) & ->).
  subst r8 r7 r6 r5 r4 r3 r2 r1.
  rewrite app_nil_r in E1.
  rewrite !app_assoc in E1.
  apply (f_equal (@rev ascii)) in E1.
  rewrite !rev_app_distr in E1. cbn [rev app] in E1.
  assert (Hsp : forall l l', (rev ws ++ l)%list = ("2"%char :: l')%list -> False).
  { intros l l' Hl. destruct (rev ws) as [|c w] eqn:Hr.
    - apply (f_equal (@rev ascii)) in Hr. rewrite rev_involutive in Hr. now apply Hne.
    - cbn in Hl. injection Hl as -> _.
      rewrite Forall_forall in Hws. specialize (Hws "2"%char).
      assert (Hin : In "2"%char ws) by (apply in_rev; rewrite Hr; now left).
      specialize (Hws Hin). discriminate. }
  cbn [directive_regex In] in Hah, Ham.
  destruct Ham as [<-|[<-|[]]]; invert_alt; cbn [rev app] in E1.
  - (* a minute of two digits: the first would be the colon *)
    injection E1 as <- <- _. discriminate.
  - injection E1 as <- E1.
    destruct Hah as [<-|[<-|[<-|[]]]]; invert_alt; cbn [rev app] in E1.
    + (* 2[0-3] *) injection E1 as <- <- _. discriminate.
    + (* [0-1]\d *) injection E1 as <- <- _. discriminate.
    + (* \d *) injection E1 as <- E1. symmetry in E1. exact (Hsp _ _ E1).
Qed.

(** Hence no date, whatever its text, makes ["<date> 24:0"] parse. *)
Lemma to_datetime_hour_24 (date : string) :
  exists msg,
    to_datetime (date ++ " " ++ str 24 ++ ":" ++ str 0) "%Y-%m-%d %H:%M"
    = Err (ValueError msg).
Proof.
  unfold to_datetime, strptime.
  change (compile_format false (list_ascii_of_string "%Y-%m-%d %H:%M"))
    with (Some [DYear; DLit "-"; DMonth; DLit "-"; DDay; DSpace; DHour; DLit ":"; DMinute]).
  rewrite list_ascii_of_string_app.
  change (list_ascii_of_string (" " ++ str 24 ++ ":" ++ str 0))
    with [" "; "2"; "4"; ":"; "0"]%char.
  destruct (match_format _ _ _) as [|[f [|c rest]] l] eqn:E; cbn [result_bind].
  - now eexists.
  - exfalso. assert (Hin : In (f, []) (match_format
               [DYear; DLit "-"; DMonth; DLit "-"; DDay; DSpace; DHour; DLit ":"; DMinute]
               default_fields
               (list_ascii_of_string date ++ [" "; "2"; "4"; ":"; "0"]%char)))
      by (rewrite E; now left).
    destruct (match_format_sound _ _ _ _ _ Hin) as (txt & Htxt & Hfmt).
    rewrite app_nil_r in Htxt. subst txt.
    exact (hour_24_not_matched _ Hfmt).
  - now eexists.
Qed.

End Strptime.

(** ** The callback *)

(** With an input missing the callback returns [None] at once; the chart
    builder it was given is not consulted, whatever it is. *)
Lemma update_output_div_incomplete (builder : DataFrame -> Timestamp -> Z -> M Figure)
      (date : option string) (hour proy : option Z) (g : Globals) :
  date = None \/ hour = None \/ proy = None ->
  update_output_div_with builder date hour proy g = (Ok None, g).
Proof.
  intros H. destruct date, hour, proy; try reflexivity.
  destruct H as [H | [H | H]]; discriminate.
Qed.

(** Dash then writes that [None] into the figure of the graph. *)
Lemma dispatch_incomplete (date : option string) (hour proy : option Z) (g : Globals)
      (p : Page) :
  date = None \/ hour = None \/ proy = None ->
  dispatch date hour proy g p = (mkPage None, g).
Proof.
  intros H. unfold dispatch, update_output_div.
  now rewrite update_output_div_incomplete.
Qed.

(** C3.  The claim fails on the code.  When the user clears the hour
    dropdown while a chart [prev] is displayed, the callback does return
    without building a chart and without raising, but what it returns is
    [None], and that becomes the figure of the graph: the chart that was
    displayed is not kept. *)
Theorem dispatch_cleared_hour (prev : Figure) :
  update_output_div (Some "1970-01-02") None (Some 0) sample_globals
  = (Ok None, sample_globals) /\
  dispatch (Some "1970-01-02") None (Some 0) sample_globals (mkPage (Some prev))
  = (mkPage None, sample_globals) /\
  graph_figure (fst (dispatch (Some "1970-01-02") None (Some 0) sample_globals
                              (mkPage (Some prev))))
  <> Some prev.
Proof.
  split; [reflexivity|].
  rewrite dispatch_incomplete by (right; now left).
  split; [reflexivity|]. cbn. discriminate.
Qed.

(** C10.  The hour dropdown offers the value 24, and with it the callback
    raises [ValueError] from the parsing of the timestamp, for every date
    and every horizon; no chart is produced, and the figure of the graph
    stays as it was. *)
Theorem update_output_div_hour_24 (date : string) (proy : Z) (g : Globals) (p : Page) :
  In 24 hour_options /\
  (exists msg,
     update_output_div (Some date) (Some 24) (Some proy) g = (Err (ValueError msg), g)) /\
  dispatch (Some date) (Some 24) (Some proy) g p = (p, g).
Proof.
  destruct (to_datetime_hour_24 date) as [msg Hmsg].
  assert (Hrun : update_output_div (Some date) (Some 24) (Some proy) g
                 = (Err (ValueError msg), g)).
  { unfold update_output_div, update_output_div_with, bind, lift. now rewrite Hmsg. }
  split; [|split].
  - unfold hour_options. apply in_map_iff. exists 24%nat. split; [reflexivity|].
    apply in_seq. lia.
  - now exists msg.
  - unfold dispatch. now rewrite Hrun.
Qed.

(** Every other hour the dropdown offers gives a chart (here on the sample
    table, from its second day on). *)
Lemma update_output_div_other_hours :
  forallb (fun hour =>
             match fst (update_output_div (Some "1970-01-02") (Some hour) (Some 0)
                                          sample_globals) with
             | Ok (Some _) => true
             | _ => false
             end)
          (removelast hour_options) = true.
Proof. vm_compute. reflexivity. Qed.

(** ** The loader *)

Section LoaderFacts.

Variable to_datetime_infer : cell -> result Timestamp.

Lemma result_map_length {A B} (f : A -> result B) (l : list A) :
  forall l', result_map f l = Ok l' -> length l' = length l.
Proof.
  induction l as [|a l IH]; intros l' H; cbn in H.
  - now injection H as <-.
  - destruct (f a) as [b|]; [|discriminate]. cbn in H.
    destruct (result_map f l) as [bs|]; [|discriminate]. cbn in H.
    injection H as <-. cbn. f_equal. now apply IH.
Qed.

Lemma map_fst_combine {A B} (l : list A) :
  forall l' : list B, length l = length l' -> map fst (combine l l') = l.
Proof.
  induction l as [|a l IH]; intros [|b l'] H; try discriminate; [reflexivity|].
  cbn. f_equal. apply IH. now injection H.
Qed.

(** The index of the loaded table is the converted [time] column, in the
    order of the source. *)
Lemma index_set_index (src : RawFrame) (name : string) (keys : list Timestamp) :
  length keys = length (raw_rows src) -> index (set_index src name keys) = keys.
Proof.
  intros H. unfold set_index, index.
  destruct (column_position name (raw_columns src)); cbn [rows];
    apply map_fst_combine; now rewrite ?length_map.
Qed.

Lemma load_data_index (fs : FileSystem) (src : RawFrame) (ts : list Timestamp) :
  fs "datos_energia.csv" = Some src ->
  source_timestamps to_datetime_infer src = Ok ts ->
  exists df, load_data to_datetime_infer fs = Ok df /\ index df = ts.
Proof.
  intros Hfs Hts. unfold load_data, read_csv. rewrite Hfs. cbn [result_bind].
  unfold source_timestamps in Hts.
  destruct (raw_getitem src "time") as [time|] eqn:Htime; [|discriminate].
  cbn [result_bind] in *. rewrite Hts. cbn [result_bind].
  eexists. split; [reflexivity|].
  apply index_set_index. rewrite (result_map_length _ _ _ Hts).
  unfold raw_getitem in Htime.
  destruct (column_position "time" (raw_columns src)); [|discriminate].
  injection Htime as <-. now rewrite length_map.
Qed.

Lemma fold_left_min_head (l : list Z) :
  forall a, Forall (fun t => a <= t) l -> fold_left Z.min l a = a.
Proof.
  induction l as [|b l IH]; intros a H; [reflexivity|].
  inversion H as [|? ? Hab Hl]; subst. cbn.
  rewrite Z.min_l by assumption. now apply IH.
Qed.

Lemma last_nonempty {A} (l : list A) :
  forall c a b, last (c :: l) a = last (c :: l) b.
Proof.
  induction l as [|d l IH]; intros c a b; [reflexivity|].
  change (last (c :: d :: l) a) with (last (d :: l) a).
  change (last (c :: d :: l) b) with (last (d :: l) b).
  apply IH.
Qed.

Lemma fold_left_max_last (l : list Z) :
  forall a, is_monotonic_increasing (a :: l) = true -> fold_left Z.max l a = last l a.
Proof.
  induction l as [|b l IH]; intros a H; [reflexivity|].
  pose proof (monotonic_tail _ _ H) as Hl.
  cbn [is_monotonic_increasing] in H. apply andb_true_iff in H.
  destruct H as [Hab _]. apply Z.leb_le in Hab.
  cbn [fold_left]. rewrite Z.max_r by assumption. rewrite (IH b Hl).
  destruct l as [|c l]; [reflexivity|].
  change (last (b :: c :: l) a) with (last (c :: l) a). apply last_nonempty.
Qed.

End LoaderFacts.

(** C6, as amended.  For a source table whose timestamps are in
    chronological order, [load_data] returns a table whose index is the
    sequence of the source's timestamps, and whose first and last
    timestamps are the smallest and the largest timestamp of the source
    (there is none of either when the source has no record). *)
Theorem load_data_first_last (to_datetime_infer : cell -> result Timestamp)
        (fs : FileSystem) (src : RawFrame) (ts : list Timestamp) :
  fs "datos_energia.csv" = Some src ->
  source_timestamps to_datetime_infer src = Ok ts ->
  is_monotonic_increasing ts = true ->
  exists df,
    load_data to_datetime_infer fs = Ok df /\
    index df = ts /\
    first_timestamp df = minimum ts /\
    last_timestamp df = maximum ts.
Proof.
  intros Hfs Hts Hm.
  destruct (load_data_index to_datetime_infer fs src ts Hfs Hts) as (df & Hdf & Hidx).
  exists df. unfold first_timestamp, last_timestamp. rewrite Hidx.
  repeat split; try assumption.
  - destruct ts as [|t ts]; [reflexivity|]. cbn [hd_error minimum].
    f_equal. symmetry. apply fold_left_min_head. now apply monotonic_bounds.
  - destruct ts as [|t ts]; [reflexivity|]. cbn [maximum].
    f_equal. symmetry. now apply fold_left_max_last.
Qed.

Lemma load_data_first_last_witness :
  file_system_with source_in_order "datos_energia.csv" = Some source_in_order /\
  source_timestamps to_datetime_minutes source_in_order
  = Ok [1609459200000000000; 1609462800000000000] /\
  is_monotonic_increasing [1609459200000000000; 1609462800000000000] = true /\
  exists df,
    load_data to_datetime_minutes (file_system_with source_in_order) = Ok df /\
    index df = [1609459200000000000; 1609462800000000000] /\
    first_timestamp df = Some 1609459200000000000 /\
    last_timestamp df = Some 1609462800000000000.
Proof.
  assert (H1 : file_system_with source_in_order "datos_energia.csv" = Some source_in_order)
    by reflexivity.
  assert (H2 : source_timestamps to_datetime_minutes source_in_order
               = Ok [1609459200000000000; 1609462800000000000])
    by (vm_compute; reflexivity).
  assert (H3 : is_monotonic_increasing [1609459200000000000; 1609462800000000000] = true)
    by reflexivity.
  split; [exact H1|]. split; [exact H2|]. split; [exact H3|].
  exact (load_data_first_last to_datetime_minutes (file_system_with source_in_order)
                              source_in_order _ H1 H2 H3).
Defined.

(** C6, as stated, fails: the loader keeps the order of the source, so on a
    source whose two records are out of order the first timestamp of the
    table is the largest of the source and the last one the smallest. *)
Lemma load_data_out_of_order :
  exists df ts,
    load_data to_datetime_minutes (file_system_with source_out_of_order) = Ok df /\
    source_timestamps to_datetime_minutes source_out_of_order = Ok ts /\
    first_timestamp df = maximum ts /\
    last_timestamp df = minimum ts /\
    first_timestamp df <> minimum ts /\
    last_timestamp df <> maximum ts.
Proof.
  eexists. eexists.
  split; [vm_compute; reflexivity|].
  split; [vm_compute; reflexivity|].
  repeat split; try reflexivity; vm_compute; discriminate.
Qed.

(* ===================================================================== *)
(** * Further properties of the module *)
(* ===================================================================== *)

(** ** More on the chart builder *)

Section Window.

Lemma getitem_rows (df : DataFrame) (name : string) (rs : list (Timestamp * list cell)) :
  has_column df name = true ->
  getitem (mkDataFrame (columns df) rs) name = Ok (column_cells df name rs).
Proof.
  unfold has_column, getitem, column_cells. cbn [columns rows].
  destruct (column_position name (columns df)); [reflexivity|discriminate].
Qed.

Lemma column_cells_app (df : DataFrame) (name : string)
      (rs rs' : list (Timestamp * list cell)) :
  column_cells df name (rs ++ rs') = (column_cells df name rs ++ column_cells df name rs')%list.
Proof.
  unfold column_cells. destruct (column_position name (columns df)); [|reflexivity].
  apply map_app.
Qed.

(** The rows a chart is drawn from. *)
Lemma window_rows (df : DataFrame) (start : Timestamp) (proy : Z) :
  window df start proy
  = mkDataFrame (columns df)
      (firstn (slice_stop (length (filter (fun r => start <=? fst r) (rows df)))
                          (- (120 - proy)))
              (filter (fun r => start <=? fst r) (rows df))).
Proof. reflexivity. Qed.

Lemma rows_from_length (df : DataFrame) (start : Timestamp) :
  length (filter (fun r => start <=? fst r) (rows df)) = points_from df start.
Proof.
  unfold points_from, index.
  now rewrite <- (map_fst_filter (fun t => start <=? t)), length_map.
Qed.

Lemma index_window (df : DataFrame) (start : Timestamp) (proy : Z) :
  index (window df start proy)
  = firstn (slice_stop (points_from df start) (- (120 - proy))) (index_from df start).
Proof.
  rewrite window_rows. unfold index at 1. cbn [rows].
  rewrite <- firstn_map, rows_from_length. unfold index_from, index.
  now rewrite <- (map_fst_filter (fun t => start <=? t)).
Qed.

(** Trimming from the end, in natural numbers. *)
Lemma slice_stop_minus (len : nat) (proy : Z) :
  proy <= 119 ->
  slice_stop len (- (120 - proy)) = (len - Z.to_nat (120 - proy))%nat.
Proof.
  intros Hp. unfold slice_stop.
  replace (- (120 - proy) <? 0) with true by (symmetry; apply Z.ltb_lt; lia).
  lia.
Qed.

(** With the four columns and a chronological index: the four traces, each
    over the rows of [window]. *)
Lemma plot_series_traces (df : DataFrame) (start : Timestamp) (proy : Z) (g : Globals) :
  has_required df = true ->
  is_monotonic_increasing (index df) = true ->
  exists fig t1 t2 t3 t4,
    plot_series df start proy g = (Ok fig, g) /\
    fig_data fig = [t1; t2; t3; t4] /\
    (sc_x t1 = index (window df start proy) /\ sc_x t2 = index (window df start proy) /\
     sc_x t3 = index (window df start proy) /\ sc_x t4 = index (window df start proy)) /\
    (sc_y t1 = column_cells df observed_column (rows (window df start proy)) /\
     sc_y t2 = column_cells df forecast_column (rows (window df start proy)) /\
     sc_y t3 = column_cells df upper_column (rows (window df start proy)) /\
     sc_y t4 = column_cells df lower_column (rows (window df start proy))).
Proof.
  intros Hreq Hm.
  destruct (plot_series_returns df start proy g Hreq Hm)
    as (fig & y1 & y2 & y3 & y4 & Hfig & E1 & E2 & E3 & E4 & Hx & Hy).
  destruct (four_traces _ _ _ _ _ _ Hx Hy)
    as (t1 & t2 & t3 & t4 & Hl & HX & (Y1 & Y2 & Y3 & Y4)).
  destruct (has_required_columns _ Hreq) as (H1 & H2 & H3 & H4).
  rewrite window_rows in E1, E2, E3, E4.
  rewrite (getitem_rows _ _ _ H1) in E1. rewrite (getitem_rows _ _ _ H2) in E2.
  rewrite (getitem_rows _ _ _ H3) in E3. rewrite (getitem_rows _ _ _ H4) in E4.
  injection E1 as <-. injection E2 as <-. injection E3 as <-. injection E4 as <-.
  exists fig, t1, t2, t3, t4. repeat split; try assumption; tauto.
Qed.

End Window.

(** X1.  On a chronological table [plot_series] returns a chart exactly
    when none of the four columns is missing; otherwise it raises
    [KeyError] with the name of the first missing column, in the order
    observed demand, forecast, upper bound, lower bound. *)
Theorem plot_series_first_missing (df : DataFrame) (start : Timestamp) (proy : Z)
        (g : Globals) :
  is_monotonic_increasing (index df) = true ->
  match first_missing df with
  | Some name => plot_series df start proy g = (Err (KeyError (KStr name)), g)
  | None => exists fig, plot_series df start proy g = (Ok fig, g)
  end.
Proof.
  intros Hm. unfold first_missing, required_columns. cbn [find].
  unfold plot_series, bind, lift.
  rewrite (loc_from_monotonic _ _ Hm). fold (window df start proy).
  destruct (has_column df observed_column) eqn:H1; cbn [negb];
    [|now rewrite getitem_missing].
  rewrite (getitem_has_column (window df start proy) observed_column) by exact H1.
  destruct (has_column df forecast_column) eqn:H2; cbn [negb];
    [|now rewrite getitem_missing].
  rewrite (getitem_has_column (window df start proy) forecast_column) by exact H2.
  destruct (has_column df upper_column) eqn:H3; cbn [negb];
    [|now rewrite getitem_missing].
  rewrite (getitem_has_column (window df start proy) upper_column) by exact H3.
  destruct (has_column df lower_column) eqn:H4; cbn [negb];
    [|now rewrite getitem_missing].
  rewrite (getitem_has_column (window df start proy) lower_column) by exact H4.
  now eexists.
Qed.

Lemma plot_series_first_missing_witness :
  is_monotonic_increasing (index (mkDataFrame [observed_column; upper_column] [])) = true /\
  plot_series (mkDataFrame [observed_column; upper_column] []) 0 0 sample_globals
  = (Err (KeyError (KStr forecast_column)), sample_globals).
Proof.
  split; [reflexivity|].
  exact (plot_series_first_missing (mkDataFrame [observed_column; upper_column] []) 0 0
                                   sample_globals eq_refl).
Defined.



Section Chronology.

Lemma In_firstn {A} (k : nat) (l : list A) (a : A) : In a (firstn k l) -> In a l.
Proof.
  intros H. rewrite <- (firstn_skipn k l). apply in_or_app. now left.
Qed.

Lemma monotonic_cons (a : Timestamp) (l : list Timestamp) :
  Forall (fun t => a <= t) l ->
  is_monotonic_increasing l = true ->
  is_monotonic_increasing (a :: l) = true.
Proof.
  intros Ha Hl. destruct l as [|b l]; [reflexivity|].
  change (is_monotonic_increasing (a :: b :: l))
    with ((a <=? b) && is_monotonic_increasing (b :: l))%bool.
  rewrite Hl, andb_true_r.
  inversion Ha; subst. now apply Z.leb_le.
Qed.

Lemma monotonic_filter (f : Timestamp -> bool) (l : list Timestamp) :
  is_monotonic_increasing l = true -> is_monotonic_increasing (filter f l) = true.
Proof.
  induction l as [|a l IH]; intros Hm; [reflexivity|].
  pose proof (IH (monotonic_tail _ _ Hm)) as Hf.
  cbn [filter]. destruct (f a); [|exact Hf].
  apply monotonic_cons; [|exact Hf].
  apply monotonic_bounds in Hm. rewrite Forall_forall in *.
  intros t Ht. apply Hm. now apply filter_In in Ht.
Qed.

Lemma monotonic_firstn (k : nat) (l : list Timestamp) :
  is_monotonic_increasing l = true -> is_monotonic_increasing (firstn k l) = true.
Proof.
  revert l. induction k as [|k IH]; intros [|a l] Hm; try reflexivity.
  cbn [firstn]. apply monotonic_cons; [|apply IH; eapply monotonic_tail; exact Hm].
  apply monotonic_bounds in Hm. rewrite Forall_forall in *.
  intros t Ht. apply Hm. eapply In_firstn; exact Ht.
Qed.

Lemma index_from_bounds (df : DataFrame) (start : Timestamp) :
  Forall (fun t => start <= t) (index_from df start).
Proof.
  apply Forall_forall. intros t Ht. apply filter_In in Ht. now apply Z.leb_le.
Qed.

(** The rows before the left bound are below the label. *)
Lemma firstn_searchsorted_left (rs : list (Timestamp * list cell)) (x : Timestamp) :
  Forall (fun r => fst r < x) (firstn (searchsorted_left (map fst rs) x) rs).
Proof.
  induction rs as [|r rs IH]; [constructor|].
  cbn [map searchsorted_left]. destruct (Z.ltb_spec (fst r) x); [|constructor].
  cbn [firstn]. now constructor.
Qed.

Lemma firstn_prefix {A} (k k' : nat) (l : list A) :
  (k <= k')%nat -> firstn k' l = (firstn k l ++ firstn (k' - k) (skipn k l))%list.
Proof.
  intros Hk. rewrite <- (firstn_skipn k l) at 1.
  rewrite firstn_app, length_firstn.
  destruct (Nat.le_ge_cases k (length l)) as [Hl|Hl].
  - rewrite Nat.min_l by assumption. f_equal.
    rewrite firstn_firstn, Nat.min_r by assumption. reflexivity.
  - rewrite Nat.min_r by assumption.
    rewrite (skipn_all2 l Hl), !firstn_nil, !app_nil_r.
    rewrite firstn_firstn. now rewrite Nat.min_r by assumption.
Qed.

End Chronology.

(** X3.  On a chronological table the chart never shows a point before
    [start]: the timestamps of every trace are in chronological order, none
    is before [start], they are a leading part of the timestamps of the
    table from [start] on, and so, when there are any, the first of them is
    the first timestamp of the table that is not before [start]. *)
Theorem plot_series_from_start (df : DataFrame) (start : Timestamp) (proy : Z) (g : Globals) :
  has_required df = true ->
  is_monotonic_increasing (index df) = true ->
  exists fig,
    plot_series df start proy g = (Ok fig, g) /\
    Forall (fun s =>
              Forall (fun t => start <= t) (sc_x s) /\
              is_monotonic_increasing (sc_x s) = true /\
              (exists k, sc_x s = firstn k (index_from df start)) /\
              (sc_x s <> [] -> hd_error (sc_x s) = hd_error (index_from df start)))
           (fig_data fig).
Proof.
  intros Hreq Hm.
  destruct (plot_series_traces df start proy g Hreq Hm)
    as (fig & t1 & t2 & t3 & t4 & Hfig & Hl & (X1 & X2 & X3 & X4) & _).
  exists fig. split; [exact Hfig|]. rewrite Hl.
  assert (H : forall xs, xs = index (window df start proy) ->
                         Forall (fun t => start <= t) xs /\
                         is_monotonic_increasing xs = true /\
                         (exists k, xs = firstn k (index_from df start)) /\
                         (xs <> [] -> hd_error xs = hd_error (index_from df start))).
  { intros xs ->. rewrite index_window.
    set (k := slice_stop _ _). repeat split.
    - pose proof (index_from_bounds df start) as Hb. rewrite Forall_forall in *.
      intros t Ht. apply Hb. eapply In_firstn; exact Ht.
    - apply monotonic_firstn. now apply monotonic_filter.
    - now exists k.
    - destruct k; [now cbn|]. now destruct (index_from df start). }
  repeat constructor; now apply H.
Qed.

Lemma plot_series_from_start_witness :
  has_required (sample_table 130) = true /\
  is_monotonic_increasing (index (sample_table 130)) = true /\
  exists fig,
    plot_series (sample_table 130) (3 * hour_ns + 1) 10 sample_globals
    = (Ok fig, sample_globals) /\
    Forall (fun s =>
              Forall (fun t => 3 * hour_ns + 1 <= t) (sc_x s) /\
              is_monotonic_increasing (sc_x s) = true /\
              (exists k, sc_x s = firstn k (index_from (sample_table 130) (3 * hour_ns + 1))) /\
              (sc_x s <> [] ->
               hd_error (sc_x s)
               = hd_error (index_from (sample_table 130) (3 * hour_ns + 1))))
           (fig_data fig).
Proof.
  assert (H1 : has_required (sample_table 130) = true) by (vm_compute; reflexivity).
  assert (H2 : is_monotonic_increasing (index (sample_table 130)) = true)
    by (vm_compute; reflexivity).
  split; [exact H1|]. split; [exact H2|].
  exact (plot_series_from_start (sample_table 130) (3 * hour_ns + 1) 10 sample_globals
                                H1 H2).
Defined.

(** X4.  On a chronological table the chart is a run of consecutive rows
    of the table: the rows split into those before [start], the rows shown
    and the rows trimmed; every trace has the timestamps of the rows shown
    as its x, and the cells of its own column in those same rows as its y;
    and the rows trimmed are the last [120 - proy] of the rows from [start]
    on (all of them when there are fewer). *)
Theorem plot_series_rows (df : DataFrame) (start : Timestamp) (proy : Z) (g : Globals) :
  has_required df = true ->
  is_monotonic_increasing (index df) = true ->
  0 <= proy <= 119 ->
  exists fig before shown trimmed,
    plot_series df start proy g = (Ok fig, g) /\
    rows df = (before ++ shown ++ trimmed)%list /\
    Forall (fun r => fst r < start) before /\
    Forall (fun r => start <= fst r) (shown ++ trimmed) /\
    Z.of_nat (length trimmed) = Z.min (120 - proy) (Z.of_nat (points_from df start)) /\
    map sc_x (fig_data fig) = repeat (map fst shown) 4 /\
    map sc_y (fig_data fig) = map (fun name => column_cells df name shown) required_columns.
Proof.
  intros Hreq Hm Hp.
  destruct (plot_series_traces df start proy g Hreq Hm)
    as (fig & t1 & t2 & t3 & t4 & Hfig & Hl & (X1 & X2 & X3 & X4) & (Y1 & Y2 & Y3 & Y4)).
  pose proof (skipn_searchsorted_left (rows df) start Hm) as Hskip.
  pose proof (rows_from_length df start) as Hlen.
  unfold index in X1, X2, X3, X4.
  rewrite window_rows in X1, X2, X3, X4, Y1, Y2, Y3, Y4. cbn [rows] in *.
  set (from := filter (fun r => start <=? fst r) (rows df)) in *.
  set (k := slice_stop (length from) (- (120 - proy))) in *.
  exists fig, (firstn (searchsorted_left (map fst (rows df)) start) (rows df)),
         (firstn k from), (skipn k from).
  split; [exact Hfig|]. split; [|split; [|split; [|split; [|split]]]].
  - rewrite firstn_skipn, <- Hskip. now rewrite firstn_skipn.
  - apply firstn_searchsorted_left.
  - rewrite firstn_skipn. apply Forall_forall. intros r Hr.
    apply filter_In in Hr. now apply Z.leb_le.
  - rewrite length_skipn. unfold k. rewrite slice_stop_minus by lia. lia.
  - rewrite Hl. cbn. now rewrite X1, X2, X3, X4.
  - rewrite Hl. cbn. now rewrite Y1, Y2, Y3, Y4.
Qed.

Lemma plot_series_rows_witness :
  has_required (sample_table 130) = true /\
  is_monotonic_increasing (index (sample_table 130)) = true /\
  exists fig before shown trimmed,
    plot_series (sample_table 130) (3 * hour_ns) 100 sample_globals
    = (Ok fig, sample_globals) /\
    rows (sample_table 130) = (before ++ shown ++ trimmed)%list /\
    Forall (fun r => fst r < 3 * hour_ns) before /\
    Forall (fun r => 3 * hour_ns <= fst r) (shown ++ trimmed) /\
    Z.of_nat (length trimmed)
    = Z.min (120 - 100) (Z.of_nat (points_from (sample_table 130) (3 * hour_ns))) /\
    map sc_x (fig_data fig) = repeat (map fst shown) 4 /\
    map sc_y (fig_data fig)
    = map (fun name => column_cells (sample_table 130) name shown) required_columns.
Proof.
  assert (H1 : has_required (sample_table 130) = true) by (vm_compute; reflexivity).
  assert (H2 : is_monotonic_increasing (index (sample_table 130)) = true)
    by (vm_compute; reflexivity).
  split; [exact H1|]. split; [exact H2|].
  apply (plot_series_rows (sample_table 130) (3 * hour_ns) 100 sample_globals H1 H2). lia.
Defined.

(** X5.  On a chronological table, raising the horizon within [.. 119]
    only adds points at the end of the chart: for [proy <= proy' <= 119],
    every trace for [proy'] is the trace for [proy] followed by further
    points, as many in y as in x. *)
Theorem plot_series_horizon_prefix (df : DataFrame) (start : Timestamp) (proy proy' : Z)
        (g : Globals) :
  has_required df = true ->
  is_monotonic_increasing (index df) = true ->
  proy <= proy' -> proy' <= 119 ->
  exists fig fig',
    plot_series df start proy g = (Ok fig, g) /\
    plot_series df start proy' g = (Ok fig', g) /\
    Forall2 (fun s s' => exists xs ys,
                 sc_x s' = (sc_x s ++ xs)%list /\ sc_y s' = (sc_y s ++ ys)%list /\
                 length xs = length ys)
            (fig_data fig) (fig_data fig').
Proof.
  intros Hreq Hm Hle Hp.
  destruct (plot_series_traces df start proy g Hreq Hm)
    as (fig & t1 & t2 & t3 & t4 & Hfig & Hl & (X1 & X2 & X3 & X4) & (Y1 & Y2 & Y3 & Y4)).
  destruct (plot_series_traces df start proy' g Hreq Hm)
    as (fig' & u1 & u2 & u3 & u4 & Hfig' & Hl' & (X1' & X2' & X3' & X4') &
        (Y1' & Y2' & Y3' & Y4')).
  exists fig, fig'. split; [exact Hfig|]. split; [exact Hfig'|].
  rewrite Hl, Hl'.
  unfold index in *. rewrite window_rows in *. cbn [rows] in *.
  set (from := filter (fun r => start <=? fst r) (rows df)) in *.
  rewrite !slice_stop_minus in * by lia.
  set (k := (length from - Z.to_nat (120 - proy))%nat) in *.
  set (k' := (length from - Z.to_nat (120 - proy'))%nat) in *.
  assert (Hk : (k <= k')%nat) by (unfold k, k'; lia).
  pose proof (firstn_prefix k k' from Hk) as Hpre.
  set (more := firstn (k' - k) (skipn k from)) in *.
  assert (Hcol : forall name,
             has_column df name = true ->
             exists xs ys,
               map fst (firstn k' from) = (map fst (firstn k from) ++ xs)%list /\
               column_cells df name (firstn k' from)
               = (column_cells df name (firstn k from) ++ ys)%list /\
               length xs = length ys).
  { intros name Hname. exists (map fst more), (column_cells df name more).
    rewrite Hpre, column_cells_app, map_app. repeat split.
    unfold column_cells, has_column in *.
    destruct (column_position name (columns df)); [|discriminate].
    now rewrite !length_map. }
  destruct (has_required_columns _ Hreq) as (H1 & H2 & H3 & H4).
  repeat constructor;
    rewrite ?X1, ?X2, ?X3, ?X4, ?Y1, ?Y2, ?Y3, ?Y4,
            ?X1', ?X2', ?X3', ?X4', ?Y1', ?Y2', ?Y3', ?Y4';
    now apply Hcol.
Qed.

Lemma plot_series_horizon_prefix_witness :
  has_required (sample_table 130) = true /\
  is_monotonic_increasing (index (sample_table 130)) = true /\
  exists fig fig',
    plot_series (sample_table 130) (3 * hour_ns) 20 sample_globals
    = (Ok fig, sample_globals) /\
    plot_series (sample_table 130) (3 * hour_ns) 90 sample_globals
    = (Ok fig', sample_globals) /\
    Forall2 (fun s s' => exists xs ys,
                 sc_x s' = (sc_x s ++ xs)%list /\ sc_y s' = (sc_y s ++ ys)%list /\
                 length xs = length ys)
            (fig_data fig) (fig_data fig').
Proof.
  assert (H1 : has_required (sample_table 130) = true) by (vm_compute; reflexivity).
  assert (H2 : is_monotonic_increasing (index (sample_table 130)) = true)
    by (vm_compute; reflexivity).
  split; [exact H1|]. split; [exact H2|].
  apply (plot_series_horizon_prefix (sample_table 130) (3 * hour_ns) 20 90 sample_globals
                                    H1 H2); lia.
Defined.

Lemma filter_narrow (start start' : Timestamp) (rs : list (Timestamp * list cell)) :
  start <= start' ->
  filter (fun r => start' <=? fst r) (filter (fun r => start <=? fst r) rs)
  = filter (fun r => start' <=? fst r) rs.
Proof.
  intros Hle. induction rs as [|r rs IH]; [reflexivity|].
  cbn [filter].
  destruct (Z.leb_spec start (fst r)), (Z.leb_spec start' (fst r));
    cbn [filter]; try lia; rewrite ?IH;
    repeat match goal with
           | |- context [?a <=? ?b] => destruct (Z.leb_spec a b); try lia
           end; reflexivity.
Qed.

(** X6.  On a chronological table, moving [start] later only removes
    points from the front of the chart: for [start <= start'] and
    [proy <= 119], every trace for [start] is the trace for [start']
    preceded by the rows removed, which all lie from [start] up to, but not
    including, [start']. *)
Theorem plot_series_later_start (df : DataFrame) (start start' : Timestamp) (proy : Z)
        (g : Globals) :
  has_required df = true ->
  is_monotonic_increasing (index df) = true ->
  start <= start' -> proy <= 119 ->
  exists fig fig' removed,
    plot_series df start proy g = (Ok fig, g) /\
    plot_series df start' proy g = (Ok fig', g) /\
    Forall (fun r => start <= fst r < start') removed /\
    map sc_x (fig_data fig)
    = map (fun xs => map fst removed ++ xs)%list (map sc_x (fig_data fig')) /\
    map sc_y (fig_data fig)
    = map (fun cy => column_cells df (fst cy) removed ++ snd cy)%list
          (combine required_columns (map sc_y (fig_data fig'))).
Proof.
  intros Hreq Hm Hle Hp.
  destruct (plot_series_traces df start proy g Hreq Hm)
    as (fig & t1 & t2 & t3 & t4 & Hfig & Hl & (X1 & X2 & X3 & X4) & (Y1 & Y2 & Y3 & Y4)).
  destruct (plot_series_traces df start' proy g Hreq Hm)
    as (fig' & u1 & u2 & u3 & u4 & Hfig' & Hl' & (X1' & X2' & X3' & X4') &
        (Y1' & Y2' & Y3' & Y4')).
  unfold index in *. rewrite window_rows in *. cbn [rows] in *.
  rewrite !slice_stop_minus in * by lia.
  set (from := filter (fun r => start <=? fst r) (rows df)) in *.
  set (from' := filter (fun r => start' <=? fst r) (rows df)) in *.
  set (K := Z.to_nat (120 - proy)) in *.
  assert (Hmf : is_monotonic_increasing (map fst from) = true).
  { unfold from. rewrite (map_fst_filter (fun t => start <=? t)).
    now apply monotonic_filter. }
  pose proof (skipn_searchsorted_left from start' Hmf) as Hskip.
  unfold from in Hskip at 3. rewrite (filter_narrow _ _ _ Hle) in Hskip.
  fold from' in Hskip.
  set (q := searchsorted_left (map fst from) start') in *.
  assert (Hsplit : from = (firstn q from ++ from')%list)
    by (rewrite <- Hskip; now rewrite firstn_skipn).
  assert (Hcut : firstn (length from - K) from
                 = (firstn (length from - K) (firstn q from)
                    ++ firstn (length from' - K) from')%list).
  { assert (Hlen : length from = (length (firstn q from) + length from')%nat)
      by (rewrite Hsplit at 1; apply length_app).
    rewrite Hsplit at 2. rewrite firstn_app. f_equal. f_equal. lia. }
  exists fig, fig', (firstn (length from - K) (firstn q from)).
  split; [exact Hfig|]. split; [exact Hfig'|]. split; [|split].
  - apply Forall_forall. intros r Hr. apply In_firstn in Hr.
    pose proof (firstn_searchsorted_left from start') as Hb. fold q in Hb.
    rewrite Forall_forall in Hb. split; [|now apply Hb].
    apply In_firstn in Hr. apply filter_In in Hr. now apply Z.leb_le.
  - rewrite Hl, Hl'. cbn [map].
    now rewrite X1, X2, X3, X4, X1', X2', X3', X4', Hcut, map_app.
  - rewrite Hl, Hl'. cbn [map combine required_columns fst snd].
    now rewrite Y1, Y2, Y3, Y4, Y1', Y2', Y3', Y4', Hcut, !column_cells_app.
Qed.

Lemma plot_series_later_start_witness :
  has_required (sample_table 130) = true /\
  is_monotonic_increasing (index (sample_table 130)) = true /\
  exists fig fig' removed,
    plot_series (sample_table 130) hour_ns 119 sample_globals = (Ok fig, sample_globals) /\
    plot_series (sample_table 130) (4 * hour_ns) 119 sample_globals
    = (Ok fig', sample_globals) /\
    Forall (fun r => hour_ns <= fst r < 4 * hour_ns) removed /\
    map sc_x (fig_data fig)
    = map (fun xs => map fst removed ++ xs)%list (map sc_x (fig_data fig')) /\
    map sc_y (fig_data fig)
    = map (fun cy => column_cells (sample_table 130) (fst cy) removed ++ snd cy)%list
          (combine required_columns (map sc_y (fig_data fig'))).
Proof.
  assert (H1 : has_required (sample_table 130) = true) by (vm_compute; reflexivity).
  assert (H2 : is_monotonic_increasing (index (sample_table 130)) = true)
    by (vm_compute; reflexivity).
  split; [exact H1|]. split; [exact H2|].
  apply (plot_series_later_start (sample_table 130) hour_ns (4 * hour_ns) 119
                                 sample_globals H1 H2); vm_compute; discriminate.
Defined.

(** ** More on the loader *)

Section LoaderErrors.

Variable to_datetime_infer : cell -> result Timestamp.

(** A conversion that fails reports the first value, in the order of the
    records, that does not convert. *)
Lemma result_map_raises {A B} (f : A -> result B) (l : list A) (e : exn) :
  result_map f l = Err e ->
  exists before a after,
    l = (before ++ a :: after)%list /\
    Forall (fun a' => exists b, f a' = Ok b) before /\
    f a = Err e.
Proof.
  induction l as [|a l IH]; intros H; [discriminate|].
  cbn in H. destruct (f a) as [b|e'] eqn:Ha; cbn in H.
  - destruct (result_map f l) as [bs|e'] eqn:Hl; [discriminate|]. cbn in H.
    injection H as ->. destruct (IH eq_refl) as (before & a' & after & -> & Hb & Ha').
    exists (a :: before), a', after. repeat split; try assumption.
    constructor; [now exists b|assumption].
  - injection H as ->. exists [], a, l. repeat split; [constructor|assumption].
Qed.

Lemma nth_remove_nth {A} (p q : nat) (l : list A) (d : A) :
  q <> p ->
  nth (if q <? p then q else q - 1)%nat (remove_nth p l) d = nth q l d.
Proof.
  revert q l. induction p as [|p IH]; intros q l Hq.
  - destruct q as [|q]; [contradiction|]. cbn [Nat.ltb Nat.leb].
    replace (S q - 1)%nat with q by lia.
    destruct l as [|a l]; [now destruct q|reflexivity].
  - destruct l as [|a l].
    + cbn [remove_nth]. generalize (if (q <? S p)%nat then q else (q - 1)%nat).
      intros n. now destruct n, q.
    + destruct q as [|q]; [reflexivity|].
      cbn [remove_nth]. specialize (IH q l).
      destruct (Nat.ltb_spec (S q) (S p)), (Nat.ltb_spec q p); try lia.
      * cbn [nth]. apply IH. lia.
      * destruct q as [|q]; [lia|].
        replace (S (S q) - 1)%nat with (S q) by lia. cbn [nth].
        replace (S q - 1)%nat with q in IH by lia. apply IH. lia.
Qed.

Lemma column_position_distinct (name other : string) (cols : list string) (p q : nat) :
  column_position other cols = Some p ->
  column_position name cols = Some q ->
  name <> other -> q <> p.
Proof.
  revert p q. induction cols as [|c cols IH]; intros p q Hp Hq Hne; [discriminate|].
  cbn [column_position] in *.
  destruct (String.eqb_spec other c) as [->|], (String.eqb_spec name c) as [->|];
    try contradiction.
  - injection Hp as <-. destruct (column_position name cols); [|discriminate].
    injection Hq as <-. lia.
  - injection Hq as <-. destruct (column_position other cols); [|discriminate].
    injection Hp as <-. lia.
  - destruct (column_position other cols) as [p'|]; [|discriminate].
    destruct (column_position name cols) as [q'|]; [|discriminate].
    injection Hp as <-. injection Hq as <-.
    specialize (IH p' q' eq_refl eq_refl Hne). lia.
Qed.

Lemma column_position_remove_nth (name other : string) (cols : list string) (p : nat) :
  column_position other cols = Some p ->
  name <> other ->
  column_position name (remove_nth p cols)
  = option_map (fun q => if q <? p then q else q - 1)%nat (column_position name cols).
Proof.
  revert p. induction cols as [|c cols IH]; intros p Hp Hne; [discriminate|].
  cbn [column_position] in *.
  destruct (String.eqb_spec other c) as [->|Hoc].
  - injection Hp as <-. cbn [remove_nth].
    destruct (String.eqb_spec name c); [contradiction|].
    destruct (column_position name cols) as [q|]; [|reflexivity].
    cbn [option_map]. f_equal. cbn [Nat.ltb Nat.leb]. lia.
  - destruct (column_position other cols) as [p'|] eqn:Ep; [|discriminate].
    injection Hp as <-. cbn [remove_nth column_position].
    destruct (String.eqb_spec name c); [reflexivity|].
    rewrite (IH p' eq_refl Hne).
    destruct (column_position name cols) as [q|] eqn:Eq; [|reflexivity].
    pose proof (column_position_distinct _ _ _ _ _ Ep Eq Hne).
    cbn [option_map]. f_equal.
    destruct (Nat.ltb_spec q p'), (Nat.ltb_spec (S q) (S p')); lia.
Qed.

Lemma map_snd_combine {A B C} (f : B -> C) (l : list A) :
  forall l' : list B,
    length l = length l' -> map (fun r => f (snd r)) (combine l l') = map f l'.
Proof.
  induction l as [|a l IH]; intros [|b l'] H; try discriminate; [reflexivity|].
  cbn. f_equal. apply IH. now injection H.
Qed.

(** What [load_data] returns, when it returns. *)
Lemma load_data_inv (fs : FileSystem) (df : DataFrame) :
  load_data to_datetime_infer fs = Ok df ->
  exists src p ts,
    fs "datos_energia.csv" = Some src /\
    column_position "time" (raw_columns src) = Some p /\
    source_timestamps to_datetime_infer src = Ok ts /\
    length ts = length (raw_rows src) /\
    df = mkDataFrame (remove_nth p (raw_columns src))
                     (combine ts (map (remove_nth p) (raw_rows src))).
Proof.
  unfold load_data, read_csv, source_timestamps, raw_getitem, set_index.
  destruct (fs "datos_energia.csv") as [src|]; [|discriminate]. cbn [result_bind].
  destruct (column_position "time" (raw_columns src)) as [p|] eqn:Hp; [|discriminate].
  cbn [result_bind].
  destruct (result_map _ _) as [ts|] eqn:Hts; [|discriminate]. cbn [result_bind].
  intros [= <-]. exists src, p, ts.
  split; [reflexivity|]. split; [exact Hp|]. rewrite Hp. cbn [result_bind].
  split; [exact Hts|]. split; [|reflexivity].
  now rewrite (result_map_length _ _ _ Hts), length_map.
Qed.

End LoaderErrors.

(** X7.  When [pd.read_csv] has read the file into a table and [load_data]
    fails all the same, it is for one of two reasons: the table has no
    [time] column ([KeyError('time')]); or some timestamp does not convert,
    and then the error is the one of the first record, in the order of the
    file, whose timestamp does not convert. *)
Theorem load_data_errors (to_datetime_infer : cell -> result Timestamp) (fs : FileSystem)
        (src : RawFrame) (e : exn) :
  fs "datos_energia.csv" = Some src ->
  load_data to_datetime_infer fs = Err e ->
  (column_position "time" (raw_columns src) = None /\ e = KeyError (KStr "time")) \/
  (exists before c after,
      raw_getitem src "time" = Ok (before ++ c :: after)%list /\
      Forall (fun c' => exists t, to_datetime_infer c' = Ok t) before /\
      to_datetime_infer c = Err e).
Proof.
  intros Hfs. unfold load_data, read_csv. rewrite Hfs. cbn [result_bind].
  destruct (raw_getitem src "time") as [col|e'] eqn:Hcol; cbn [result_bind].
  2:{ intros [= <-]. left. unfold raw_getitem in Hcol.
      destruct (column_position "time" (raw_columns src)); [discriminate|].
      injection Hcol as <-. now split. }
  destruct (result_map _ _) as [ts|e'] eqn:Hts; cbn [result_bind]; [discriminate|].
  intros [= ->]. right.
  destruct (result_map_raises _ _ _ Hts) as (before & c & after & -> & Hb & Hc).
  exists before, c, after. now repeat split.
Qed.

Lemma load_data_errors_witness :
  file_system_with unconverted_source "datos_energia.csv" = Some unconverted_source /\
  load_data to_datetime_minutes (file_system_with unconverted_source)
  = Err (ValueError "time data does not match format") /\
  exists before c after,
    raw_getitem unconverted_source "time" = Ok (before ++ c :: after)%list /\
    c = Text "yesterday".
Proof.
  assert (Hfs : file_system_with unconverted_source "datos_energia.csv"
                = Some unconverted_source) by reflexivity.
  assert (H : load_data to_datetime_minutes (file_system_with unconverted_source)
              = Err (ValueError "time data does not match format"))
    by (vm_compute; reflexivity).
  split; [exact Hfs|]. split; [exact H|].
  destruct (load_data_errors _ _ _ _ Hfs H) as [[Hp _]|Hconv].
  - discriminate Hp.
  - destruct Hconv as (before & c & after & Hcol & Hb & Hc).
    exists before, c, after. split; [exact Hcol|].
    cbn in Hcol. injection Hcol as Hcol.
    destruct before as [|b0 before].
    + cbn in Hcol. injection Hcol as <- _. vm_compute in Hc. discriminate Hc.
    + cbn in Hcol. injection Hcol as <- Hcol.
      destruct before as [|b1 before].
      * cbn in Hcol. now injection Hcol as <- _.
      * cbn in Hcol. injection Hcol as <- Hcol. inversion Hb as [|? ? _ Hb']; subst.
        inversion Hb' as [|? ? [t Ht] _]; subst. vm_compute in Ht. discriminate Ht.
Defined.

(** X8.  Loading loses no record and no data column: the loaded table has
    as many rows as the source has records, and for every column name other
    than [time], reading that column from the loaded table gives what
    reading it from the source gives, the same cells in the same order, or
    the same [KeyError] when the source has no such column. *)
Theorem load_data_columns (to_datetime_infer : cell -> result Timestamp) (fs : FileSystem)
        (df : DataFrame) (name : string) :
  load_data to_datetime_infer fs = Ok df ->
  name <> "time" ->
  exists src,
    fs "datos_energia.csv" = Some src /\
    length (rows df) = length (raw_rows src) /\
    getitem df name = raw_getitem src name.
Proof.
  intros Hload Hname.
  destruct (load_data_inv _ _ _ Hload) as (src & p & ts & Hfs & Hp & _ & Hlen & ->).
  exists src. split; [exact Hfs|]. split.
  - cbn [rows]. rewrite length_combine, length_map. lia.
  - unfold getitem, raw_getitem. cbn [columns rows].
    rewrite (column_position_remove_nth _ _ _ _ Hp Hname).
    destruct (column_position name (raw_columns src)) as [q|] eqn:Hq; [|reflexivity].
    cbn [option_map]. f_equal.
    rewrite (map_snd_combine (fun cells => nth (if (q <? p)%nat then q else (q - 1)%nat)
                                               cells NaN))
      by now rewrite length_map.
    rewrite map_map. apply map_ext. intros r. apply nth_remove_nth.
    eapply column_position_distinct; eassumption.
Qed.

Lemma load_data_columns_witness :
  exists df,
    load_data to_datetime_minutes (file_system_with source_in_order) = Ok df /\
    length (rows df) = 2%nat /\
    getitem df forecast_column = Ok [Num 5950; Num 5730].
Proof.
  assert (H : load_data to_datetime_minutes (file_system_with source_in_order)
              = Ok (mkDataFrame required_columns
                      [(1609459200000000000, [Num 5946; Num 5950; Num 6100; Num 5800]);
                       (1609462800000000000, [Num 5726; Num 5730; Num 5900; Num 5600])]))
    by (vm_compute; reflexivity).
  eexists. split; [exact H|].
  destruct (load_data_columns _ _ _ forecast_column H) as (src & Hfs & Hlen & Hcol);
    [discriminate|].
  cbn in Hfs. injection Hfs as <-. split; [exact Hlen|]. rewrite Hcol. reflexivity.
Defined.

(** ** Dates and hours as the callback reads them *)

Section Isoformat.

Lemma digit_char_spec (n : Z) :
  is_digit (digit_char n) = true /\ Z.of_N (N_of_ascii (digit_char n)) - 48 = n mod 10.
Proof.
  unfold digit_char. pose proof (Z.mod_pos_bound n 10 eq_refl) as Hk.
  set (k := n mod 10) in *.
  assert (Hc : k = 0 \/ k = 1 \/ k = 2 \/ k = 3 \/ k = 4 \/ k = 5 \/ k = 6 \/ k = 7 \/
               k = 8 \/ k = 9) by lia.
  clearbody k. repeat destruct Hc as [Hc|Hc]; subst k; split; reflexivity.
Qed.

(** Going through the values that a bounded number can take. *)
Tactic Notation "enumerate" constr(n) "below" integer(bound) :=
  let k := fresh "k" in
  let Hk := fresh "Hk" in
  assert (Hk : n = Z.of_nat (Z.to_nat n)) by lia;
  generalize dependent (Z.to_nat n); intros k Hk;
  do bound (destruct k as [|k];
            [first [exfalso; lia | subst n; vm_compute; reflexivity]|]);
  exfalso; lia.

Lemma match_year (f : fields) (y : Z) (rest : list ascii) :
  0 <= y <= 9999 ->
  match_directive DYear f (digits_of 4 y ++ rest) = [(set_field DYear y f, rest)].
Proof.
  intros Hy. cbn [digits_of app match_directive directive_regex flat_map match_alt].
  destruct (digit_char_spec (y / 10 / 10 / 10)) as [D1 V1].
  destruct (digit_char_spec (y / 10 / 10)) as [D2 V2].
  destruct (digit_char_spec (y / 10)) as [D3 V3].
  destruct (digit_char_spec y) as [D4 V4].
  rewrite D1, D2, D3, D4. cbn [app]. do 2 f_equal. f_equal.
  unfold int_of_text. cbn [fold_left]. rewrite D1, D2, D3, D4, V1, V2, V3, V4.
  Z.to_euclidean_division_equations. lia.
Qed.

Lemma match_month (f : fields) (m : Z) (rest : list ascii) :
  1 <= m <= 12 ->
  hd_error (match_directive DMonth f (digits_of 2 m ++ rest))
  = Some (set_field DMonth m f, rest).
Proof. intros Hm. enumerate m below 13. Qed.

Lemma match_day (f : fields) (d : Z) (rest : list ascii) :
  1 <= d <= 31 ->
  hd_error (match_directive DDay f (digits_of 2 d ++ rest))
  = Some (set_field DDay d f, rest).
Proof. intros Hd. enumerate d below 32. Qed.

Lemma match_time (f : fields) (h : Z) :
  0 <= h <= 23 ->
  hd_error (match_format [DSpace; DHour; DLit ":"; DMinute] f
                         (list_ascii_of_string (" " ++ str h ++ ":" ++ str 0)))
  = Some (set_field DMinute 0 (set_field DHour h f), []).
Proof. intros Hh. enumerate h below 24. Qed.

Lemma match_format_step (d : directive) (ds : list directive) (f f1 : fields)
      (s r1 : list ascii) (res : fields * list ascii) :
  hd_error (match_directive d f s) = Some (f1, r1) ->
  hd_error (match_format ds f1 r1) = Some res ->
  hd_error (match_format (d :: ds) f s) = Some res.
Proof.
  intros H1 H2. cbn [match_format].
  destruct (match_directive d f s) as [|[f1' r1'] tl]; [discriminate|].
  injection H1 as -> ->. cbn [flat_map fst snd].
  destruct (match_format ds f1 r1); [discriminate|]. exact H2.
Qed.

Lemma strptime_isoformat (y m d h : Z) :
  0 <= y <= 9999 -> 1 <= m <= 12 -> 1 <= d <= 31 -> 0 <= h <= 23 ->
  strptime (isoformat_ymd y m d ++ " " ++ str h ++ ":" ++ str 0) "%Y-%m-%d %H:%M"
  = Ok (mkFields y m d h 0).
Proof.
  intros Hy Hm Hd Hh. unfold strptime.
  change (compile_format false (list_ascii_of_string "%Y-%m-%d %H:%M"))
    with (Some [DYear; DLit "-"; DMonth; DLit "-"; DDay; DSpace; DHour; DLit ":"; DMinute]).
  rewrite list_ascii_of_string_app. unfold isoformat_ymd.
  rewrite list_ascii_of_string_of_list_ascii. rewrite <- !app_assoc.
  assert (H : hd_error (match_format
              [DYear; DLit "-"; DMonth; DLit "-"; DDay; DSpace; DHour; DLit ":"; DMinute]
              default_fields
              (digits_of 4 y ++ ["-"%char] ++ digits_of 2 m ++ ["-"%char] ++ digits_of 2 d ++
               list_ascii_of_string (" " ++ str h ++ ":" ++ str 0))%list)
              = Some (mkFields y m d h 0, [])).
  { eapply match_format_step; [rewrite match_year by assumption; reflexivity|].
    eapply match_format_step; [reflexivity|].
    eapply match_format_step; [apply match_month; assumption|].
    eapply match_format_step; [reflexivity|].
    eapply match_format_step; [apply match_day; assumption|].
    rewrite match_time by assumption. reflexivity. }
  destruct (match_format _ _ _) as [|[f [|c r]] l]; try discriminate.
  now injection H as ->.
Qed.

End Isoformat.

Lemma days_in_month_bound (y m : Z) : 28 <= days_in_month y m <= 31.
Proof.
  unfold days_in_month.
  destruct (m =? 2); [destruct (is_leap y); lia|].
  destruct ((m =? 4) || (m =? 6) || (m =? 9) || (m =? 11))%bool; lia.
Qed.

(** The day numbers of the years 1678 to 2261, the years that lie entirely
    within the range of a [Timestamp]. *)
Lemma days_from_civil_range (y m d : Z) :
  1678 <= y <= 2261 -> 1 <= m <= 12 -> 1 <= d <= 31 ->
  -106650 <= days_from_civil y m d <= 106650.
Proof.
  intros Hy Hm Hd. unfold days_from_civil.
  destruct (Z.leb_spec m 2), (Z.ltb_spec 2 m); try lia;
    Z.to_euclidean_division_equations; lia.
Qed.

(** The text the callback builds from a date of the calendar and an hour
    of the day parses to that hour of that date. *)
Lemma to_datetime_isoformat (y m d h : Z) :
  1678 <= y <= 2261 -> 1 <= m <= 12 -> 1 <= d <= days_in_month y m -> 0 <= h <= 23 ->
  to_datetime (isoformat_ymd y m d ++ " " ++ str h ++ ":" ++ str 0) "%Y-%m-%d %H:%M"
  = Ok (days_from_civil y m d * ns_per_day + h * ns_per_hour).
Proof.
  intros Hy Hm Hd Hh. pose proof (days_in_month_bound y m) as Hdim.
  unfold to_datetime. rewrite strptime_isoformat by lia. cbn [result_bind].
  cbn [f_year f_month f_day].
  replace (y <? 1) with false by (symmetry; apply Z.ltb_ge; lia).
  replace (days_in_month y m <? d) with false by (symmetry; apply Z.ltb_ge; lia).
  cbn [orb]. unfold timestamp_of_fields. cbn [f_year f_month f_day f_hour f_minute].
  pose proof (days_from_civil_range y m d Hy Hm ltac:(lia)) as Hdays.
  set (days := days_from_civil y m d) in *.
  unfold timestamp_min, timestamp_max, ns_per_day, ns_per_hour, ns_per_minute.
  replace (_ <? _) with false by (symmetry; apply Z.ltb_ge; lia).
  replace (_ <? _) with false by (symmetry; apply Z.ltb_ge; lia).
  cbn [orb]. f_equal. lia.
Qed.

(** X9.  For a date of the calendar in the years 1678 to 2261, written
    [YYYY-MM-DD], and an hour from 0 to 23, the timestamp that the callback
    parses from ["<date> <hour>:0"] lies on that date, at that hour, on the
    hour. *)
Theorem callback_timestamp (y m d h : Z) :
  1678 <= y <= 2261 -> 1 <= m <= 12 -> 1 <= d <= days_in_month y m -> 0 <= h <= 23 ->
  exists t,
    to_datetime (isoformat_ymd y m d ++ " " ++ str h ++ ":" ++ str 0) "%Y-%m-%d %H:%M"
    = Ok t /\
    timestamp_date t = days_from_civil y m d /\
    timestamp_hour t = h /\
    t mod ns_per_hour = 0.
Proof.
  intros Hy Hm Hd Hh. eexists. split; [now apply to_datetime_isoformat|].
  unfold timestamp_date, timestamp_hour, ns_per_day, ns_per_hour, ns_per_minute.
  set (days := days_from_civil y m d).
  repeat split; Z.to_euclidean_division_equations; lia.
Qed.

Lemma callback_timestamp_witness :
  1 <= 29 <= days_in_month 2000 2 /\
  exists t,
    to_datetime (isoformat_ymd 2000 2 29 ++ " " ++ str 7 ++ ":" ++ str 0) "%Y-%m-%d %H:%M"
    = Ok t /\
    timestamp_date t = days_from_civil 2000 2 29 /\
    timestamp_hour t = 7 /\
    t mod ns_per_hour = 0.
Proof.
  assert (H : 1 <= 29 <= days_in_month 2000 2) by (vm_compute; split; discriminate).
  split; [exact H|].
  apply (callback_timestamp 2000 2 29 7); [lia | lia | exact H | lia].
Defined.

(** X10.  Of the 25 hours that the dropdown offers, 24 is the only one the
    callback cannot parse: for a date of the calendar as above and an hour
    among the options, the timestamp parses exactly when the hour is not
    24. *)
Theorem callback_hour_parses (y m d h : Z) :
  1678 <= y <= 2261 -> 1 <= m <= 12 -> 1 <= d <= days_in_month y m ->
  In h hour_options ->
  (exists t,
      to_datetime (isoformat_ymd y m d ++ " " ++ str h ++ ":" ++ str 0) "%Y-%m-%d %H:%M"
      = Ok t)
  <-> h <> 24.
Proof.
  intros Hy Hm Hd Hin.
  assert (Hh : 0 <= h <= 24).
  { unfold hour_options in Hin. apply in_map_iff in Hin.
    destruct Hin as (k & <- & Hk). apply in_seq in Hk. lia. }
  split.
  - intros [t Ht] ->. destruct (to_datetime_hour_24 (isoformat_ymd y m d)) as [msg Hmsg].
    rewrite Hmsg in Ht. discriminate.
  - intros Hne. eexists. apply to_datetime_isoformat; lia.
Qed.

Lemma callback_hour_parses_witness :
  1 <= 31 <= days_in_month 2021 1 /\
  In 23 hour_options /\
  exists t,
    to_datetime (isoformat_ymd 2021 1 31 ++ " " ++ str 23 ++ ":" ++ str 0) "%Y-%m-%d %H:%M"
    = Ok t.
Proof.
  assert (H : 1 <= 31 <= days_in_month 2021 1) by (vm_compute; split; discriminate).
  assert (Hin : In 23 hour_options) by (vm_compute; tauto).
  split; [exact H|]. split; [exact Hin|].
  apply (callback_hour_parses 2021 1 31 23); [lia | lia | exact H | exact Hin | lia].
Defined.

(** X11.  For a chronological table with the four columns, a date of the
    calendar as above, an hour from 0 to 23 and any horizon, the callback
    returns the chart that [plot_series] builds from the global table at
    that hour of that date, and Dash puts it on the page. *)
Theorem update_output_div_chart (y m d h proy : Z) (g : Globals) (p : Page) :
  1678 <= y <= 2261 -> 1 <= m <= 12 -> 1 <= d <= days_in_month y m -> 0 <= h <= 23 ->
  has_required (g_data g) = true ->
  is_monotonic_increasing (index (g_data g)) = true ->
  exists fig,
    plot_series (g_data g) (days_from_civil y m d * ns_per_day + h * ns_per_hour) proy g
    = (Ok fig, g) /\
    update_output_div (Some (isoformat_ymd y m d)) (Some h) (Some proy) g
    = (Ok (Some fig), g) /\
    dispatch (Some (isoformat_ymd y m d)) (Some h) (Some proy) g p = (mkPage (Some fig), g).
Proof.
  intros Hy Hm Hd Hh Hreq Hmono.
  destruct (plot_series_returns (g_data g)
              (days_from_civil y m d * ns_per_day + h * ns_per_hour) proy g Hreq Hmono)
    as (fig & _ & _ & _ & _ & Hfig & _).
  assert (Hrun : update_output_div (Some (isoformat_ymd y m d)) (Some h) (Some proy) g
                 = (Ok (Some fig), g)).
  { unfold update_output_div, update_output_div_with, bind, lift, get_data, ret, int.
    rewrite to_datetime_isoformat by assumption. now rewrite Hfig. }
  exists fig. split; [exact Hfig|]. split; [exact Hrun|].
  unfold dispatch. now rewrite Hrun.
Qed.

Lemma update_output_div_chart_witness :
  1 <= 2 <= days_in_month 1970 1 /\
  has_required (g_data sample_globals) = true /\
  is_monotonic_increasing (index (g_data sample_globals)) = true /\
  exists fig,
    plot_series (g_data sample_globals)
                (days_from_civil 1970 1 2 * ns_per_day + 5 * ns_per_hour) 119 sample_globals
    = (Ok fig, sample_globals) /\
    update_output_div (Some (isoformat_ymd 1970 1 2)) (Some 5) (Some 119) sample_globals
    = (Ok (Some fig), sample_globals) /\
    dispatch (Some (isoformat_ymd 1970 1 2)) (Some 5) (Some 119) sample_globals (mkPage None)
    = (mkPage (Some fig), sample_globals).
Proof.
  assert (H1 : 1 <= 2 <= days_in_month 1970 1) by (vm_compute; split; discriminate).
  assert (H2 : has_required (g_data sample_globals) = true) by (vm_compute; reflexivity).
  assert (H3 : is_monotonic_increasing (index (g_data sample_globals)) = true)
    by (vm_compute; reflexivity).
  split; [exact H1|]. split; [exact H2|]. split; [exact H3|].
  apply (update_output_div_chart 1970 1 2 5 119 sample_globals (mkPage None));
    [lia | lia | exact H1 | lia | exact H2 | exact H3].
Defined.

(** X12.  The callback returns [None] exactly when one of its three inputs
    is missing; it then raises nothing and does not consult the chart
    builder, whatever that builder is. *)
Theorem update_output_div_none (date : option string) (hour proy : option Z) (g : Globals) :
  (fst (update_output_div date hour proy g) = Ok None
   <-> date = None \/ hour = None \/ proy = None) /\
  (date = None \/ hour = None \/ proy = None ->
   forall builder, update_output_div_with builder date hour proy g = (Ok None, g)).
Proof.
  split; [split|].
  - destruct date as [date|], hour as [hour|], proy as [proy|]; try tauto.
    unfold update_output_div, update_output_div_with, bind, lift, get_data, ret.
    destruct (to_datetime _ _); [|discriminate].
    destruct (plot_series _ _ _ g) as [[fig|e] g']; discriminate.
  - intros H. unfold update_output_div. now rewrite update_output_div_incomplete.
  - intros H builder. now apply update_output_div_incomplete.
Qed.

Lemma update_output_div_none_witness :
  fst (update_output_div None (Some 3) (Some 0) sample_globals) = Ok None /\
  update_output_div_with (fun _ _ _ g => (Err (ValueError "not called"), g))
                         None (Some 3) (Some 0) sample_globals
  = (Ok None, sample_globals).
Proof.
  destruct (update_output_div_none None (Some 3) (Some 0) sample_globals) as [[_ H1] H2].
  split; [apply H1; now left|apply H2; now left].
Defined.

(** ** The control card *)

Section Controls.

Lemma fold_left_min_spec (l : list Z) :
  forall a,
    (fold_left Z.min l a = a \/ In (fold_left Z.min l a) l) /\
    fold_left Z.min l a <= a /\
    Forall (fun t => fold_left Z.min l a <= t) l.
Proof.
  induction l as [|b l IH]; intros a; cbn [fold_left].
  - split; [now left|]. split; [lia|constructor].
  - destruct (IH (Z.min a b)) as (Hin & Hle & Hall).
    split; [|split].
    + destruct Hin as [Heq|Hin]; [|right; now right].
      rewrite Heq. destruct (Z.min_spec a b) as [[_ ->]|[_ ->]]; [now left|right; now left].
    + lia.
    + constructor; [lia|exact Hall].
Qed.

Lemma fold_left_max_spec (l : list Z) :
  forall a,
    (fold_left Z.max l a = a \/ In (fold_left Z.max l a) l) /\
    a <= fold_left Z.max l a /\
    Forall (fun t => t <= fold_left Z.max l a) l.
Proof.
  induction l as [|b l IH]; intros a; cbn [fold_left].
  - split; [now left|]. split; [lia|constructor].
  - destruct (IH (Z.max a b)) as (Hin & Hle & Hall).
    split; [|split].
    + destruct Hin as [Heq|Hin]; [|right; now right].
      rewrite Heq. destruct (Z.max_spec a b) as [[_ ->]|[_ ->]]; [right; now left|now left].
    + lia.
    + constructor; [lia|exact Hall].
Qed.

Lemma minimum_spec (l : list Z) (a : Z) :
  minimum l = Some a -> In a l /\ Forall (fun t => a <= t) l.
Proof.
  destruct l as [|b l]; [discriminate|]. cbn [minimum]. intros [= <-].
  destruct (fold_left_min_spec l b) as (Hin & Hle & Hall).
  split; [destruct Hin as [->|Hin]; [now left|now right]|now constructor].
Qed.

Lemma maximum_spec (l : list Z) (a : Z) :
  maximum l = Some a -> In a l /\ Forall (fun t => t <= a) l.
Proof.
  destruct l as [|b l]; [discriminate|]. cbn [maximum]. intros [= <-].
  destruct (fold_left_max_spec l b) as (Hin & Hle & Hall).
  split; [destruct Hin as [->|Hin]; [now left|now right]|now constructor].
Qed.

Lemma timestamp_date_monotone (t t' : Timestamp) :
  t <= t' -> timestamp_date t <= timestamp_date t'.
Proof.
  intros H. unfold timestamp_date. apply Z.div_le_mono; [reflexivity|exact H].
Qed.

(** The smallest date of a table is the date of its smallest timestamp,
    and likewise for the largest. *)
Lemma minimum_dates (idx : list Timestamp) (t : Timestamp) :
  minimum idx = Some t -> minimum (map timestamp_date idx) = Some (timestamp_date t).
Proof.
  intros Ht. destruct (minimum_spec _ _ Ht) as [Hin Hall].
  destruct (minimum (map timestamp_date idx)) as [dmin|] eqn:Hd.
  - destruct (minimum_spec _ _ Hd) as [Hdin Hdall]. f_equal.
    apply in_map_iff in Hdin. destruct Hdin as (u & <- & Hu).
    rewrite Forall_forall in Hall, Hdall.
    pose proof (timestamp_date_monotone _ _ (Hall u Hu)).
    pose proof (Hdall _ (in_map timestamp_date _ _ Hin)). lia.
  - destruct idx; [discriminate Ht|discriminate Hd].
Qed.

Lemma maximum_dates (idx : list Timestamp) (t : Timestamp) :
  maximum idx = Some t -> maximum (map timestamp_date idx) = Some (timestamp_date t).
Proof.
  intros Ht. destruct (maximum_spec _ _ Ht) as [Hin Hall].
  destruct (maximum (map timestamp_date idx)) as [dmax|] eqn:Hd.
  - destruct (maximum_spec _ _ Hd) as [Hdin Hdall]. f_equal.
    apply in_map_iff in Hdin. destruct Hdin as (u & <- & Hu).
    rewrite Forall_forall in Hall, Hdall.
    pose proof (timestamp_date_monotone _ _ (Hall u Hu)).
    pose proof (Hdall _ (in_map timestamp_date _ _ Hin)). lia.
  - destruct idx; [discriminate Ht|discriminate Hd].
Qed.

(** The card that [generate_control_card] returns, when it returns one. *)
Lemma generate_control_card_inv (g g' : Globals) (card : ControlCard) :
  generate_control_card g = (Ok card, g') ->
  exists earliest latest,
    minimum (index (g_data g)) = Some earliest /\
    maximum (index (g_data g)) = Some latest /\
    timestamp_min <= latest - 7 * ns_per_day <= timestamp_max /\
    g' = g /\
    card = mkControlCard (timestamp_date earliest) (timestamp_date latest)
                         (timestamp_date earliest) (timestamp_date latest - 7)
                         hour_options (timestamp_hour (latest - 7 * ns_per_day))
                         0 119 1 0.
Proof.
  unfold generate_control_card, bind, lift, get_data, ret, py_min, py_max,
    timestamp_minus_days.
  destruct (minimum (index (g_data g))) as [earliest|] eqn:Hmin.
  2:{ destruct (index (g_data g)); [discriminate|discriminate Hmin]. }
  destruct (maximum (index (g_data g))) as [latest|] eqn:Hmax.
  2:{ destruct (index (g_data g)); [discriminate Hmin|discriminate Hmax]. }
  rewrite (minimum_dates _ _ Hmin), (maximum_dates _ _ Hmax).
  destruct (Z.ltb_spec (latest - 7 * ns_per_day) timestamp_min); cbn [orb];
    [discriminate|].
  destruct (Z.ltb_spec timestamp_max (latest - 7 * ns_per_day)); [discriminate|].
  intros [= <- <-]. exists earliest, latest. repeat split; lia.
Qed.

End Controls.

(** X13.  A data file that has the [time] column but no record makes the
    import of the module fail: the table loads, empty, and building the
    date picker raises [ValueError] from [min] of an empty sequence. *)
Theorem startup_without_records (to_datetime_infer : cell -> result Timestamp)
        (fs : FileSystem) (src : RawFrame) :
  fs "datos_energia.csv" = Some src ->
  column_position "time" (raw_columns src) <> None ->
  raw_rows src = [] ->
  (exists df, load_data to_datetime_infer fs = Ok df /\ rows df = []) /\
  startup to_datetime_infer fs = Err (ValueError "min() arg is an empty sequence").
Proof.
  intros Hfs Hp Hrows.
  assert (Hload : exists df, load_data to_datetime_infer fs = Ok df /\ rows df = []).
  { unfold load_data, read_csv, raw_getitem, set_index. rewrite Hfs. cbn [result_bind].
    destruct (column_position "time" (raw_columns src)); [|contradiction].
    rewrite Hrows. cbn. eexists. split; reflexivity. }
  split; [exact Hload|]. destruct Hload as (df & Hdf & Hnil).
  unfold startup, import_module. rewrite Hdf. cbn [result_bind].
  unfold generate_control_card, bind, lift, get_data, index. cbn [g_data].
  now rewrite Hnil.
Qed.

Lemma startup_without_records_witness :
  startup to_datetime_minutes (file_system_with (mkRawFrame source_header []))
  = Err (ValueError "min() arg is an empty sequence").
Proof.
  apply (startup_without_records to_datetime_minutes
           (file_system_with (mkRawFrame source_header [])) (mkRawFrame source_header [])).
  - reflexivity.
  - discriminate.
  - reflexivity.
Defined.

(** X14.  The card that [generate_control_card] returns allows the dates
    from that of the earliest timestamp of the table to that of the latest
    one, and no timestamp of the table falls on a date outside them; the
    date selected at first is 7 days before the latest date; the hour
    selected at first is the hour of the latest timestamp, so it is between
    0 and 23, among the options, and never the option 24; the horizon
    selected at first is 0.  The module's state is unchanged. *)
Theorem generate_control_card_values (g g' : Globals) (card : ControlCard) :
  generate_control_card g = (Ok card, g') ->
  g' = g /\
  exists earliest latest,
    minimum (index (g_data g)) = Some earliest /\
    maximum (index (g_data g)) = Some latest /\
    min_date_allowed card = timestamp_date earliest /\
    max_date_allowed card = timestamp_date latest /\
    Forall (fun t => min_date_allowed card <= timestamp_date t <= max_date_allowed card)
           (index (g_data g)) /\
    initial_visible_month card = min_date_allowed card /\
    picker_date card = max_date_allowed card - 7 /\
    dropdown_value card = timestamp_hour latest /\
    0 <= dropdown_value card <= 23 /\
    In (dropdown_value card) (dropdown_options card) /\
    slider_min card <= slider_value card <= slider_max card /\
    slider_value card = 0.
Proof.
  intros H.
  destruct (generate_control_card_inv _ _ _ H)
    as (earliest & latest & Hmin & Hmax & Hrange & -> & ->).
  split; [reflexivity|]. exists earliest, latest.
  cbn [min_date_allowed max_date_allowed initial_visible_month picker_date
       dropdown_options dropdown_value slider_min slider_max slider_step slider_value].
  destruct (minimum_spec _ _ Hmin) as [_ Hlo].
  destruct (maximum_spec _ _ Hmax) as [_ Hhi].
  assert (Hhour : timestamp_hour (latest - 7 * ns_per_day) = timestamp_hour latest).
  { unfold timestamp_hour, ns_per_day, ns_per_hour, ns_per_minute.
    Z.to_euclidean_division_equations. lia. }
  assert (Hh : 0 <= timestamp_hour latest <= 23).
  { unfold timestamp_hour. pose proof (Z.mod_pos_bound (latest / ns_per_hour) 24 eq_refl).
    lia. }
  rewrite Hhour.
  repeat split; try assumption; try reflexivity; try lia.
  - rewrite Forall_forall in *. intros t Ht.
    split; apply timestamp_date_monotone; [now apply Hlo|now apply Hhi].
  - unfold hour_options. apply in_map_iff.
    exists (Z.to_nat (timestamp_hour latest)). split; [lia|]. apply in_seq. lia.
Qed.

Lemma generate_control_card_values_witness :
  exists card,
    generate_control_card sample_globals = (Ok card, sample_globals) /\
    min_date_allowed card = 0 /\ max_date_allowed card = 5 /\
    picker_date card = max_date_allowed card - 7 /\
    dropdown_value card = 9 /\ In (dropdown_value card) (dropdown_options card).
Proof.
  assert (H : generate_control_card sample_globals
              = (Ok (mkControlCard 0 5 0 (-2) hour_options 9 0 119 1 0), sample_globals))
    by (vm_compute; reflexivity).
  eexists. split; [exact H|].
  destruct (generate_control_card_values _ _ _ H)
    as (_ & earliest & latest & _ & _ & _ & _ & _ & _ & Hpick & _ & _ & Hin & _).
  repeat split; try reflexivity; assumption.
Defined.

(** X15.  The date selected at first is never after the latest date the
    picker allows, and it is not before the earliest one exactly when the
    date of the latest timestamp of the table is at least 7 days after the
    date of the earliest; for a table that covers fewer days it is before
    the earliest date allowed. *)
Theorem generate_control_card_first_date (g g' : Globals) (card : ControlCard) :
  generate_control_card g = (Ok card, g') ->
  picker_date card <= max_date_allowed card /\
  exists earliest latest,
    minimum (index (g_data g)) = Some earliest /\
    maximum (index (g_data g)) = Some latest /\
    (min_date_allowed card <= picker_date card
     <-> 7 <= timestamp_date latest - timestamp_date earliest) /\
    (timestamp_date latest - timestamp_date earliest < 7 ->
     picker_date card < min_date_allowed card).
Proof.
  intros H.
  destruct (generate_control_card_inv _ _ _ H)
    as (earliest & latest & Hmin & Hmax & Hrange & -> & ->).
  cbn [min_date_allowed max_date_allowed initial_visible_month picker_date
       dropdown_options dropdown_value slider_min slider_max slider_step slider_value].
  split; [lia|]. exists earliest, latest.
  split; [exact Hmin|]. split; [exact Hmax|]. split; lia.
Qed.

Lemma generate_control_card_first_date_witness :
  exists card,
    generate_control_card sample_globals = (Ok card, sample_globals) /\
    picker_date card <= max_date_allowed card /\
    picker_date card < min_date_allowed card.
Proof.
  assert (H : generate_control_card sample_globals
              = (Ok (mkControlCard 0 5 0 (-2) hour_options 9 0 119 1 0), sample_globals))
    by (vm_compute; reflexivity).
  eexists. split; [exact H|].
  destruct (generate_control_card_first_date _ _ _ H) as (Hle & _).
  split; [exact Hle|]. cbn. lia.
Defined.

(** ** The chart shown at first *)

Section Calendar.

Ltac split_tests :=
  repeat match goal with
         | |- context [?a <? ?b] => destruct (Z.ltb_spec a b); try (exfalso; lia)
         | |- context [?a <=? ?b] => destruct (Z.leb_spec a b); try (exfalso; lia)
         | |- context [?a =? ?b] => destruct (Z.eqb_spec a b); try (exfalso; lia)
         end; cbn [andb orb negb].

(** The civil date of a day number is a date of the calendar, and it has
    that day number. *)
Lemma civil_from_days_spec (z : Z) :
  let '(y, m, d) := civil_from_days z in
  days_from_civil y m d = z /\ 1 <= m <= 12 /\ 1 <= d <= days_in_month y m.
Proof.
  unfold civil_from_days, days_from_civil.
  set (zz := z + 719468). set (era := zz / 146097). set (doe := zz - era * 146097).
  assert (Hz : z = era * 146097 + doe - 719468) by (unfold doe, zz; lia).
  assert (Hdoe : 0 <= doe < 146097)
    by (unfold doe, era; Z.to_euclidean_division_equations; lia).
  clearbody doe. clearbody era. clear zz.
  set (yoe := (doe - doe / 1460 + doe / 36524 - doe / 146096) / 365).
  assert (Hyoe : 0 <= yoe <= 399) by (unfold yoe; Z.to_euclidean_division_equations; lia).
  set (doy := doe - (365 * yoe + yoe / 4 - yoe / 100)).
  assert (Hdoy : 0 <= doy <= 365)
    by (unfold doy, yoe; Z.to_euclidean_division_equations; lia).
  assert (Hleap : doy = 365 ->
                  (yoe + 1) mod 4 = 0 /\ ((yoe + 1) mod 100 <> 0 \/ yoe = 399))
    by (unfold doy, yoe; Z.to_euclidean_division_equations; lia).
  assert (Hdoe' : doe = yoe * 365 + yoe / 4 - yoe / 100 + doy) by (unfold doy; lia).
  clearbody doy. clearbody yoe.
  set (mp := (5 * doy + 2) / 153).
  assert (Hmp : 0 <= mp <= 11) by (unfold mp; Z.to_euclidean_division_equations; lia).
  assert (Hmp' : 153 * mp <= 5 * doy + 2 < 153 * mp + 153)
    by (unfold mp; Z.to_euclidean_division_equations; lia).
  clearbody mp.
  set (q := (153 * mp + 2) / 5).
  assert (Hq : 5 * q <= 153 * mp + 2 < 5 * q + 5)
    by (unfold q; Z.to_euclidean_division_equations; lia).
  clearbody q.
  split; [|split].
  - split_tests; Z.to_euclidean_division_equations; lia.
  - split_tests; lia.
  - unfold days_in_month, is_leap.
    split_tests; Z.to_euclidean_division_equations; lia.
Qed.

(** The days of the years 1678 to 2261 have their civil date in those
    years. *)
Lemma civil_from_days_year (z : Z) :
  -106650 <= z <= 106650 ->
  1678 <= fst (fst (civil_from_days z)) <= 2261.
Proof.
  intros Hz. unfold civil_from_days. cbn [fst].
  split_tests; Z.to_euclidean_division_equations; lia.
Qed.

End Calendar.

(** X16.  The first round of the callback, on the values the control card
    selects at first (the date as [YYYY-MM-DD], within the years 1678 to
    2261): for a chronological table with the four columns it shows the
    chart that [plot_series] builds with horizon 0 from the table, starting
    7 days before the latest timestamp, at the beginning of that hour. *)
Theorem first_chart (g g' : Globals) (card : ControlCard) :
  generate_control_card g = (Ok card, g') ->
  -106650 <= picker_date card <= 106650 ->
  has_required (g_data g) = true ->
  is_monotonic_increasing (index (g_data g)) = true ->
  exists latest fig,
    maximum (index (g_data g)) = Some latest /\
    plot_series (g_data g) ((latest - 7 * ns_per_day) / ns_per_hour * ns_per_hour) 0 g
    = (Ok fig, g) /\
    update_output_div (Some (isoformat (picker_date card))) (Some (dropdown_value card))
                      (Some (slider_value card)) g
    = (Ok (Some fig), g).
Proof.
  intros Hcard Hrange Hreq Hmono.
  destruct (generate_control_card_inv _ _ _ Hcard)
    as (earliest & latest & Hmin & Hmax & Hbounds & -> & ->).
  cbn [picker_date dropdown_value slider_value] in *.
  set (start := (latest - 7 * ns_per_day) / ns_per_hour * ns_per_hour).
  destruct (plot_series_returns (g_data g) start 0 g Hreq Hmono)
    as (fig & _ & _ & _ & _ & Hfig & _).
  exists latest, fig. split; [exact Hmax|]. split; [exact Hfig|].
  pose proof (civil_from_days_spec (timestamp_date latest - 7)) as Hcivil.
  pose proof (civil_from_days_year (timestamp_date latest - 7) Hrange) as Hyear.
  unfold isoformat.
  destruct (civil_from_days (timestamp_date latest - 7)) as [[y m] d].
  cbn [fst] in Hyear. destruct Hcivil as (Hdays & Hm & Hd).
  assert (Hh : 0 <= timestamp_hour (latest - 7 * ns_per_day) <= 23).
  { unfold timestamp_hour.
    pose proof (Z.mod_pos_bound ((latest - 7 * ns_per_day) / ns_per_hour) 24 eq_refl).
    lia. }
  unfold update_output_div, update_output_div_with, bind, lift, get_data, ret, int.
  rewrite (to_datetime_isoformat y m d _ Hyear Hm Hd Hh). rewrite Hdays.
  replace (_ * ns_per_day + _ * ns_per_hour) with start.
  - now rewrite Hfig.
  - unfold start, timestamp_date, timestamp_hour, ns_per_day, ns_per_hour, ns_per_minute.
    Z.to_euclidean_division_equations. lia.
Qed.

Lemma first_chart_witness :
  exists card latest fig,
    generate_control_card (mkGlobals (sample_table 400))
    = (Ok card, mkGlobals (sample_table 400)) /\
    -106650 <= picker_date card <= 106650 /\
    maximum (index (sample_table 400)) = Some latest /\
    plot_series (sample_table 400) ((latest - 7 * ns_per_day) / ns_per_hour * ns_per_hour)
                0 (mkGlobals (sample_table 400))
    = (Ok fig, mkGlobals (sample_table 400)) /\
    update_output_div (Some (isoformat (picker_date card))) (Some (dropdown_value card))
                      (Some (slider_value card)) (mkGlobals (sample_table 400))
    = (Ok (Some fig), mkGlobals (sample_table 400)).
Proof.
  assert (H : generate_control_card (mkGlobals (sample_table 400))
              = (Ok (mkControlCard 0 16 0 9 hour_options 15 0 119 1 0),
                 mkGlobals (sample_table 400)))
    by (vm_compute; reflexivity).
  assert (H1 : has_required (sample_table 400) = true) by (vm_compute; reflexivity).
  assert (H2 : is_monotonic_increasing (index (sample_table 400)) = true)
    by (vm_compute; reflexivity).
  destruct (first_chart _ _ _ H ltac:(cbn; lia) H1 H2) as (latest & fig & Hmax & Hfig & Hrun).
  exists (mkControlCard 0 16 0 9 hour_options 15 0 119 1 0), latest, fig.
  split; [exact H|]. split; [cbn; lia|]. split; [exact Hmax|].
  split; [exact Hfig|exact Hrun].
Defined.

(** ** From the file to the controls *)

Lemma generate_control_card_returns (g : Globals) (earliest latest : Timestamp) :
  minimum (index (g_data g)) = Some earliest ->
  maximum (index (g_data g)) = Some latest ->
  timestamp_min <= latest - 7 * ns_per_day <= timestamp_max ->
  generate_control_card g
  = (Ok (mkControlCard (timestamp_date earliest) (timestamp_date latest)
                       (timestamp_date earliest) (timestamp_date latest - 7)
                       hour_options (timestamp_hour (latest - 7 * ns_per_day))
                       0 119 1 0), g).
Proof.
  intros Hmin Hmax Hrange.
  unfold generate_control_card, bind, lift, get_data, ret, py_min, py_max,
    timestamp_minus_days.
  rewrite (minimum_dates _ _ Hmin), (maximum_dates _ _ Hmax), Hmax.
  replace (_ <? timestamp_min) with false by (symmetry; apply Z.ltb_ge; lia).
  replace (timestamp_max <? _) with false by (symmetry; apply Z.ltb_ge; lia).
  reflexivity.
Qed.

(** X17.  Importing the module on a data file whose records are in
    chronological order, the last of them at least 7 days inside the range
    of a [Timestamp]: the table loads with the timestamps of the file as
    its index, and the date picker allows the dates from that of the first
    record to that of the last, while the hour selected at first is the
    hour of the last record. *)
Theorem startup_chronological (to_datetime_infer : cell -> result Timestamp)
        (fs : FileSystem) (src : RawFrame) (first : Timestamp) (rest : list Timestamp) :
  fs "datos_energia.csv" = Some src ->
  source_timestamps to_datetime_infer src = Ok (first :: rest) ->
  is_monotonic_increasing (first :: rest) = true ->
  timestamp_min <= last rest first - 7 * ns_per_day <= timestamp_max ->
  exists card g,
    startup to_datetime_infer fs = Ok (card, g) /\
    index (g_data g) = first :: rest /\
    min_date_allowed card = timestamp_date first /\
    max_date_allowed card = timestamp_date (last rest first) /\
    picker_date card = timestamp_date (last rest first) - 7 /\
    dropdown_value card = timestamp_hour (last rest first).
Proof.
  intros Hfs Hts Hm Hrange.
  destruct (load_data_index to_datetime_infer fs src _ Hfs Hts) as (df & Hdf & Hidx).
  assert (Hmin : minimum (index (g_data (mkGlobals df))) = Some first).
  { cbn [g_data]. rewrite Hidx. cbn [minimum]. f_equal.
    apply fold_left_min_head. now apply monotonic_bounds. }
  assert (Hmax : maximum (index (g_data (mkGlobals df))) = Some (last rest first)).
  { cbn [g_data]. rewrite Hidx. cbn [maximum]. f_equal. now apply fold_left_max_last. }
  eexists. exists (mkGlobals df).
  split; [|split; [exact Hidx|]].
  - unfold startup, import_module. rewrite Hdf. cbn [result_bind].
    rewrite (generate_control_card_returns _ _ _ Hmin Hmax Hrange). reflexivity.
  - cbn [min_date_allowed max_date_allowed picker_date dropdown_value].
    repeat split.
    unfold timestamp_hour, ns_per_day, ns_per_hour, ns_per_minute.
    Z.to_euclidean_division_equations. lia.
Qed.

Lemma startup_chronological_witness :
  source_timestamps to_datetime_minutes source_in_order
  = Ok [1609459200000000000; 1609462800000000000] /\
  exists card g,
    startup to_datetime_minutes (file_system_with source_in_order) = Ok (card, g) /\
    index (g_data g) = [1609459200000000000; 1609462800000000000] /\
    min_date_allowed card = timestamp_date 1609459200000000000 /\
    max_date_allowed card = timestamp_date (last [1609462800000000000] 1609459200000000000) /\
    picker_date card
    = timestamp_date (last [1609462800000000000] 1609459200000000000) - 7 /\
    dropdown_value card
    = timestamp_hour (last [1609462800000000000] 1609459200000000000).
Proof.
  assert (H : source_timestamps to_datetime_minutes source_in_order
              = Ok [1609459200000000000; 1609462800000000000])
    by (vm_compute; reflexivity).
  split; [exact H|].
  apply (startup_chronological to_datetime_minutes (file_system_with source_in_order)
                               source_in_order _ _ eq_refl H eq_refl).
  vm_compute. split; discriminate.
Defined.
